(** * MetaBridge: the media resolution and placement pipeline

    A shallow embedding of [lib/MediaProcessor.py], [lib/ExifImageHandler.py]
    and of [process_stickers] from [MetaBridge.py], followed by the
    properties of the pipeline.

    Conventions of the embedding:
    - a Python value read from a JSON manifest is a [json]; JSON numbers are
      integers (the export writes integer epoch seconds);
    - a Python [str] is a [string] of 8-bit characters, [str.lower] and
      [str.upper] act on the ASCII letters;
    - an exception is the [Raise] outcome of a [result]; stateful code is a
      function from a [state] to a new state and a [result], so that what was
      mutated before a [raise] stays mutated;
    - the file system is a finite map from path strings to nodes, path strings
      being compared literally; [os.path] is the POSIX flavour;
    - log output is not part of the model. *)

From stdpp Require Import gmap strings pretty list.
From Stdlib Require Import ZArith Ascii Lia.

Local Open Scope Z_scope.
Set Warnings "-register-all".

(** ** Outcomes of Python code *)

Inductive exn : Set :=
| AttributeError
| TypeError
| KeyError
| ValueError
| OverflowError
| UnboundLocalError
| FileNotFoundError
| FileExistsError
| IsADirectoryError
| NotADirectoryError
| LibraryError.            (* any exception raised inside PIL or piexif *)

Inductive result (A : Type) : Type :=
| Ok (a : A)
| Raise (e : exn).
Arguments Ok {A} a.
Arguments Raise {A} e.

Global Instance result_ret : MRet result := λ A a, Ok a.
Global Instance result_bind : MBind result := λ A B f r,
  match r with
  | Ok a => f a
  | Raise e => Raise e
  end.

Global Instance result_fmap : FMap result := λ A B f r,
  match r with
  | Ok a => Ok (f a)
  | Raise e => Raise e
  end.

Global Instance exn_eq_dec : EqDecision exn.
Proof. solve_decision. Defined.

(** ** Python strings *)

Module Str.

(** [s.startswith(pre)] *)
Fixpoint startswith (s pre : string) : bool :=
  match pre, s with
  | EmptyString, _ => true
  | String a pre', String b s' => Ascii.eqb a b && startswith s' pre'
  | String _ _, EmptyString => false
  end.

Fixpoint endswith_char (s : string) (c : ascii) : bool :=
  match s with
  | EmptyString => false
  | String a EmptyString => Ascii.eqb a c
  | String _ s' => endswith_char s' c
  end.

Definition lower_char (a : ascii) : ascii :=
  let n := N_of_ascii a in
  if ((65 <=? n) && (n <=? 90))%N then ascii_of_N (n + 32) else a.

Definition upper_char (a : ascii) : ascii :=
  let n := N_of_ascii a in
  if ((97 <=? n) && (n <=? 122))%N then ascii_of_N (n - 32) else a.

Fixpoint map (f : ascii → ascii) (s : string) : string :=
  match s with
  | EmptyString => EmptyString
  | String a s' => String (f a) (map f s')
  end.

Definition lower : string → string := map lower_char.
Definition upper : string → string := map upper_char.

(** [s[:n]] and [s[n:]] for [0 <= n]. *)
Fixpoint take (n : nat) (s : string) : string :=
  match n, s with
  | S n', String a s' => String a (take n' s')
  | _, _ => EmptyString
  end.

Fixpoint drop (n : nat) (s : string) : string :=
  match n, s with
  | S n', String _ s' => drop n' s'
  | _, _ => s
  end.

(** [s.rfind(c)]: the index of the last [c] in [s], [-1] when there is none. *)
Fixpoint rfind_from (c : ascii) (s : string) (i last : Z) : Z :=
  match s with
  | EmptyString => last
  | String a s' => rfind_from c s' (i + 1) (if Ascii.eqb a c then i else last)
  end.

Definition rfind (c : ascii) (s : string) : Z := rfind_from c s 0 (-1).

(** [s.rstrip(c)] *)
Fixpoint rstrip (c : ascii) (s : string) : string :=
  match s with
  | EmptyString => EmptyString
  | String a s' =>
      match rstrip c s' with
      | EmptyString => if Ascii.eqb a c then EmptyString else String a EmptyString
      | r => String a r
      end
  end.

Fixpoint forallb (f : ascii → bool) (s : string) : bool :=
  match s with
  | EmptyString => true
  | String a s' => f a && forallb f s'
  end.

(** [sub in s] for two strings. *)
Fixpoint contains (sub s : string) : bool :=
  startswith s sub ||
  match s with
  | EmptyString => false
  | String _ s' => contains sub s'
  end.

(** [s.replace(c, "")] for a character [c]. *)
Fixpoint remove (c : ascii) (s : string) : string :=
  match s with
  | EmptyString => EmptyString
  | String a s' => if Ascii.eqb a c then remove c s' else String a (remove c s')
  end.

(** Iterating a [str] yields its one-character strings. *)
Fixpoint chars (s : string) : list string :=
  match s with
  | EmptyString => []
  | String a s' => String a EmptyString :: chars s'
  end.

End Str.

(** ** [os.path] (posixpath) *)

Module os_path.

(** [os.path.join(a, b)] *)
Definition join (a b : string) : string :=
  if Str.startswith b "/" then b
  else if bool_decide (a = "") || Str.endswith_char a "/" then a +:+ b
  else a +:+ "/" +:+ b.

(** [os.path.split(p)] *)
Definition split (p : string) : string * string :=
  let i := Z.to_nat (Str.rfind "/" p + 1) in
  let head := Str.take i p in
  let tail := Str.drop i p in
  let head :=
    if negb (bool_decide (head = "")) && negb (Str.forallb (Ascii.eqb "/") head)
    then Str.rstrip "/" head else head in
  (head, tail).

Definition dirname (p : string) : string := fst (split p).

(** The loop of [genericpath._splitext] that skips the leading dots of the
    file name: [true] when a character other than the dot stands in
    [p[filenameIndex : filenameIndex + n]]. *)
Fixpoint has_non_dot (p : string) (filenameIndex n : nat) : bool :=
  match n with
  | O => false
  | S n' =>
      match String.get filenameIndex p with
      | Some a =>
          if Ascii.eqb a "." then has_non_dot p (S filenameIndex) n' else true
      | None => true
      end
  end.

(** [os.path.splitext(p)] *)
Definition splitext (p : string) : string * string :=
  let sepIndex := Str.rfind "/" p in
  let dotIndex := Str.rfind "." p in
  if (sepIndex <? dotIndex) &&
     has_non_dot p (Z.to_nat (sepIndex + 1)) (Z.to_nat (dotIndex - (sepIndex + 1)))
  then (Str.take (Z.to_nat dotIndex) p, Str.drop (Z.to_nat dotIndex) p)
  else (p, "").

End os_path.

(** ** Values of a loaded manifest *)

Inductive json : Type :=
| JNull                                   (* None *)
| JBool (b : bool)
| JInt (z : Z)
| JStr (s : string)
| JList (l : list json)
| JDict (kv : list (string * json)).      (* looked up from the front *)

Module Py.

Fixpoint assoc (k : string) (kv : list (string * json)) : option json :=
  match kv with
  | [] => None
  | (k', v) :: kv' => if bool_decide (k' = k) then Some v else assoc k kv'
  end.

(** [d.get(k, default)] *)
Definition get (d : json) (k : string) (default : json) : result json :=
  match d with
  | JDict kv => Ok (from_option id default (assoc k kv))
  | _ => Raise AttributeError
  end.

(** [d[k]] for a string [k] *)
Definition getitem (d : json) (k : string) : result json :=
  match d with
  | JDict kv =>
      match assoc k kv with
      | Some v => Ok v
      | None => Raise KeyError
      end
  | _ => Raise TypeError
  end.

Definition is_str (k : string) (v : json) : bool :=
  match v with
  | JStr s => bool_decide (s = k)
  | _ => false
  end.

(** [k in c] for a string [k] *)
Definition contains (k : string) (c : json) : result bool :=
  match c with
  | JDict kv => Ok (bool_decide (is_Some (assoc k kv)))
  | JList l => Ok (existsb (is_str k) l)
  | JStr s => Ok (Str.contains k s)
  | _ => Raise TypeError
  end.

(** [for x in c]: the values the loop sees. *)
Definition iter (c : json) : result (list json) :=
  match c with
  | JList l => Ok l
  | JDict kv => Ok (JStr <$> kv.*1)
  | JStr s => Ok (JStr <$> Str.chars s)
  | _ => Raise TypeError
  end.

(** [bool(v)] *)
Definition truthy (v : json) : bool :=
  match v with
  | JNull => false
  | JBool b => b
  | JInt z => negb (z =? 0)
  | JStr s => negb (bool_decide (s = ""))
  | JList l => negb (bool_decide (l = []))
  | JDict kv => negb (bool_decide (kv = []))
  end.

(** [a or b] *)
Definition or (a b : json) : json := if truthy a then a else b.

(** The integer a value stands for where Python wants a number
    ([bool] is a subclass of [int]). *)
Definition as_int (v : json) : result Z :=
  match v with
  | JInt z => Ok z
  | JBool b => Ok (Z.b2z b)
  | _ => Raise TypeError
  end.

End Py.

(** ** [datetime]: from epoch seconds to a formatted local time *)

Module datetime.

(** Proleptic Gregorian date [(year, month, day)] of the day number [z]
    counted from 1970-01-01. *)
Definition civil_from_days (z : Z) : Z * Z * Z :=
  let z := z + 719468 in
  let era := z / 146097 in
  let doe := z - era * 146097 in
  let yoe := (doe - doe / 1460 + doe / 36524 - doe / 146096) / 365 in
  let y := yoe + era * 400 in
  let doy := doe - (365 * yoe + yoe / 4 - yoe / 100) in
  let mp := (5 * doy + 2) / 153 in
  let d := doy - (153 * mp + 2) / 5 + 1 in
  let m := if mp <? 10 then mp + 3 else mp - 9 in
  (if m <=? 2 then y + 1 else y, m, d).

Definition days_from_civil (y m d : Z) : Z :=
  let y := if m <=? 2 then y - 1 else y in
  let era := y / 400 in
  let yoe := y - era * 400 in
  let doy := (153 * (if 2 <? m then m - 3 else m + 9) + 2) / 5 + d - 1 in
  let doe := yoe * 365 + yoe / 4 - yoe / 100 + doy in
  era * 146097 + doe - 719468.

Record fields := {
  year : Z; month : Z; day : Z; hour : Z; minute : Z; second : Z
}.

(** The wall-clock fields of [secs] seconds after 1970-01-01T00:00:00 on the
    same clock. *)
Definition of_seconds (secs : Z) : fields :=
  let '(y, m, d) := civil_from_days (secs / 86400) in
  let r := secs mod 86400 in
  {| year := y; month := m; day := d;
     hour := r / 3600; minute := r mod 3600 / 60; second := r mod 60 |}.


(** 0001-01-01T00:00:00 and 9999-12-31T23:59:59, the range of [datetime]. *)
Definition MIN : Z := -62135596800.
Definition MAX : Z := 253402300799.

(** [datetime.fromtimestamp(ts, tz)], as the wall-clock seconds in the zone
    whose offset from UTC at the instant [t] is [utcoffset t] seconds. *)
Definition fromtimestamp (utcoffset : Z → Z) (ts : json) : result fields :=
  t ← Py.as_int ts;
  if (t <? MIN) || (MAX <? t) then Raise ValueError
  else
    let l := t + utcoffset t in
    if (l <? MIN) || (MAX <? l) then Raise OverflowError
    else Ok (of_seconds l).

Definition digit (n : Z) : ascii := ascii_of_N (48 + Z.to_N (n mod 10)).

(** [%d], [%H], ...: two digits; [%Y]: four digits. *)
Definition d2 (n : Z) : string :=
  String (digit (n / 10)) (String (digit n) "").
Definition d4 (n : Z) : string :=
  String (digit (n / 1000)) (String (digit (n / 100)) (d2 n)).

(** [strftime("%Y-%m-%d_%H.%M.%S")] *)
Definition strftime_file (f : fields) : string :=
  d4 (year f) +:+ "-" +:+ d2 (month f) +:+ "-" +:+ d2 (day f) +:+ "_" +:+
  d2 (hour f) +:+ "." +:+ d2 (minute f) +:+ "." +:+ d2 (second f).

(** [strftime("%Y:%m:%d %H:%M:%S")] *)
Definition strftime_exif (f : fields) : string :=
  d4 (year f) +:+ ":" +:+ d2 (month f) +:+ ":" +:+ d2 (day f) +:+ " " +:+
  d2 (hour f) +:+ ":" +:+ d2 (minute f) +:+ ":" +:+ d2 (second f).

End datetime.

(** ** The world the program runs in *)

Record file := { f_data : string; f_mtime : Z; f_ctime : Z }.

Inductive node :=
| Dir
| File (f : file).

(** The EXIF structure of piexif: a dictionary of IFDs (["0th"], ["Exif"],
    ...), each a dictionary from tag numbers to values, and the thumbnail. *)
Record exif_dict := {
  ifds : gmap string (gmap Z json);
  thumbnail : option string
}.

Module ExifIFD.
Definition DateTimeOriginal : Z := 36867.
End ExifIFD.

Module ImageIFD.
Definition ImageDescription : Z := 270.
End ImageIFD.

(** What the program takes from outside the repository: the time zone table
    of pytz for America/Los_Angeles, and PIL and piexif. *)
Class Externals := {
  la_timezone : Z → Z;                       (* offset from UTC, in seconds *)
  image : Type;                              (* PIL.Image.Image *)
  Image_open : string → result image;        (* from the bytes of a file *)
  Image_format : image → option string;      (* img.format *)
  Image_exif : image → option string;        (* img.info.get("exif") *)
  Image_save : image → string → string → result string;
                                             (* the bytes img.save writes *)
  piexif_load : string → result exif_dict;
  piexif_dump : exif_dict → result string
}.

(** The metadata dictionary the processor builds for the current item. *)
Record metadata_dict := {
  uri_path : string;
  description : json;
  creation_timestamp : json;
  taken_timestamp : json;
  save_directory : string;
  timestamp : json
}.

Record MediaProcessor_obj := {
  base_path : string;
  save_path : string;
  metadata : option metadata_dict;                 (* None: the empty dict *)
  is_dry_run : bool;
  processed_items : gset (string * string)
}.

(** Calls that change the file system, in the order they returned. *)
Inductive fsop :=
| OpMakedirs (d : string)
| OpCopy (src dst : string)
| OpUtime (p : string) (t : Z)
| OpImageSave (p : string) (format : string) (exif : exif_dict).

Record state := {
  self : MediaProcessor_obj;
  fs : gmap string node;
  now : Z;                                         (* int(time.time()) *)
  ops : list fsop
}.

Definition M (A : Type) : Type := state → state * result A.

Global Instance M_ret : MRet M := λ A a s, (s, Ok a).
Global Instance M_bind : MBind M := λ A B f m s,
  match m s with
  | (s', Ok a) => f a s'
  | (s', Raise e) => (s', Raise e)
  end.

Definition raise {A} (e : exn) : M A := λ s, (s, Raise e).
Definition lift {A} (r : result A) : M A := λ s, (s, r).
Definition get_state : M state := λ s, (s, Ok s).

(** [try: m  except Exception as e: h e] *)
Definition try_except {A} (m : M A) (h : exn → M A) : M A := λ s,
  match m s with
  | (s', Raise e) => h e s'
  | r => r
  end.

Definition set_self (o : MediaProcessor_obj) : M unit := λ s,
  ({| self := o; fs := fs s; now := now s; ops := ops s |}, Ok ()).

Definition set_fs (op : fsop) (fs' : gmap string node) : M unit := λ s,
  ({| self := self s; fs := fs'; now := now s; ops := ops s ++ [op] |}, Ok ()).

(** *** [os], [shutil] *)

Module os.

Definition exists_ (fs : gmap string node) (p : string) : bool :=
  bool_decide (is_Some (fs !! p)).

Definition isdir (fs : gmap string node) (p : string) : bool :=
  match fs !! p with
  | Some Dir => true
  | _ => false
  end.

Definition isfile (fs : gmap string node) (p : string) : bool :=
  match fs !! p with
  | Some (File _) => true
  | _ => false
  end.

(** [os.makedirs(d, exist_ok=True)]; the parents of [d] are not materialised
    as nodes of their own. *)
Definition makedirs (d : string) : M unit :=
  s ← get_state;
  if bool_decide (d = "") then raise FileNotFoundError
  else match fs s !! d with
       | Some (File _) => raise FileExistsError
       | Some Dir => set_fs (OpMakedirs d) (fs s)
       | None => set_fs (OpMakedirs d) (<[d := Dir]> (fs s))
       end.

(** [os.utime(p, (t, t))] *)
Definition utime (p : string) (t : json) : M unit :=
  t ← lift (Py.as_int t);
  s ← get_state;
  if (t <? - 2 ^ 63) || (2 ^ 63 <=? t) then raise OverflowError
  else match fs s !! p with
       | None => raise FileNotFoundError
       | Some Dir => set_fs (OpUtime p t) (fs s)
       | Some (File f) =>
           set_fs (OpUtime p t)
             (<[p := File {| f_data := f_data f; f_mtime := t;
                             f_ctime := now s |}]> (fs s))
       end.

(** The file names in directory [d]: the keys of [fs] that are [d] joined
    with a name. *)
Definition listdir (fs : gmap string node) (d : string) : list string :=
  let prefix := os_path.join d "" in
  omap (λ k,
    let name := Str.drop (String.length prefix) k in
    if Str.startswith k prefix && negb (bool_decide (name = "")) &&
       (Str.rfind "/" name =? -1)
    then Some name else None) (map_to_list fs).*1.

(** [int(os.path.getctime(p))] *)
Definition getctime (p : string) : M Z :=
  s ← get_state;
  match fs s !! p with
  | Some (File f) => mret (f_ctime f)
  | Some Dir => mret 0
  | None => raise FileNotFoundError
  end.

End os.

Module shutil.

(** [shutil.copy(src, dst)] *)
Definition copy (src dst : string) : M unit :=
  s ← get_state;
  match fs s !! src with
  | None => raise FileNotFoundError
  | Some Dir => raise IsADirectoryError
  | Some (File f) =>
      let target :=
        if os.isdir (fs s) dst then os_path.join dst (snd (os_path.split src))
        else dst in
      if os.isdir (fs s) target then raise IsADirectoryError
      else if bool_decide (target = src) then raise LibraryError
      else set_fs (OpCopy src target)
             (<[target := File {| f_data := f_data f; f_mtime := now s;
                                  f_ctime := now s |}]> (fs s))
  end.

End shutil.

(** ** [lib/ExifImageHandler.py] *)

Module ExifImageHandler.
Section WithExternals.
Context `{Ext : Externals}.

Record obj := {
  photo_uri : string;
  img : image;
  exif : exif_dict;
  creation_timestamp : option json       (* None: the attribute is not set *)
}.

(** The EXIF structure given to an image that carries none. *)
Definition empty_exif : exif_dict :=
  {| ifds := {[ "Exif" := ∅; "0th" := ∅; "1st" := ∅ ]}; thumbnail := None |}.

(** [Image.open(photo_uri)] *)
Definition open_image (photo_uri : string) : M image :=
  s ← get_state;
  match fs s !! photo_uri with
  | None => raise FileNotFoundError
  | Some Dir => raise IsADirectoryError
  | Some (File f) => lift (Image_open (f_data f))
  end.

(** Both [except] clauses log and re-raise. *)
Definition _load_image_exif (photo_uri : string) : M (image * exif_dict) :=
  im ← open_image photo_uri;
  let exif_data := Image_exif im in
  exif_dict ←
    match exif_data with
    | Some b => if bool_decide (b = "") then mret empty_exif
                else lift (piexif_load b)
    | None => mret empty_exif
    end;
  mret (im, exif_dict).

Definition __init__ (photo_uri : string) : M obj :=
  '(im, exif_dict) ← _load_image_exif photo_uri;
  mret {| photo_uri := photo_uri; img := im; exif := exif_dict;
          creation_timestamp := None |}.

(** [exif_dict[ifd][tag] = v] *)
Definition exif_set (ifd : string) (tag : Z) (v : json) (e : exif_dict)
  : result exif_dict :=
  match ifds e !! ifd with
  | Some d => Ok {| ifds := <[ifd := <[tag := v]> d]> (ifds e);
                    thumbnail := thumbnail e |}
  | None => Raise KeyError
  end.

Definition set_creation_timestamp (h : obj) (ts : json) : result obj :=
  dt ← datetime.fromtimestamp (λ _, 0) ts;
  let exif_dt := datetime.strftime_exif dt in
  e ← exif_set "Exif" ExifIFD.DateTimeOriginal (JStr exif_dt) (exif h);
  Ok {| photo_uri := photo_uri h; img := img h; exif := e;
        creation_timestamp := Some ts |}.

Definition set_description (h : obj) (description : json) : result obj :=
  if Py.truthy description then
    e ← exif_set "0th" ImageIFD.ImageDescription description (exif h);
    Ok {| photo_uri := photo_uri h; img := img h; exif := e;
          creation_timestamp := creation_timestamp h |}
  else Ok h.

Definition update_file_timestamps (h : obj) (image_path : string) : M unit :=
  s ← get_state;
  let timestamp := default (JInt (now s)) (creation_timestamp h) in
  os.utime image_path timestamp.

(** [self.img.save(save_path, format=image_format, exif=exif_bytes)]: the
    file is written whole or not at all. *)
Definition img_save (h : obj) (save_path image_format exif_bytes : string)
  : M unit :=
  data ← lift (Image_save (img h) image_format exif_bytes);
  s ← get_state;
  match fs s !! save_path with
  | Some Dir => raise IsADirectoryError
  | _ =>
      set_fs (OpImageSave save_path image_format (exif h))
        (<[save_path := File {| f_data := data; f_mtime := now s;
                                f_ctime := now s |}]> (fs s))
  end.

Definition save (h : obj) (save_path : string) : M unit :=
  exif_bytes ← lift (piexif_dump (exif h));
  os.makedirs (os_path.dirname save_path);;
  let '(_, file_ext) := os_path.splitext save_path in
  let file_ext := Str.remove "." (Str.lower file_ext) in
  let image_format :=
    match Image_format (img h) with
    | Some f => if bool_decide (f = "") then Str.upper file_ext else f
    | None => Str.upper file_ext
    end in
  img_save h save_path image_format exif_bytes;;
  update_file_timestamps h save_path.

End WithExternals.
End ExifImageHandler.

(** ** [lib/MediaProcessor.py] *)

Module MediaProcessor.
Section WithExternals.
Context `{Ext : Externals}.

Definition __init__ (base_path save_path : string) (dry_run : bool)
  : MediaProcessor_obj :=
  {| base_path := base_path; save_path := save_path; metadata := None;
     is_dry_run := dry_run; processed_items := ∅ |}.

(** [self.metadata[...]]: a [KeyError] on the empty dictionary. *)
Definition get_metadata : M metadata_dict :=
  s ← get_state;
  match metadata (self s) with
  | Some md => mret md
  | None => raise KeyError
  end.

Definition set_metadata (md : metadata_dict) : M unit :=
  s ← get_state;
  set_self {| base_path := base_path (self s); save_path := save_path (self s);
              metadata := Some md; is_dry_run := is_dry_run (self s);
              processed_items := processed_items (self s) |}.

(** [self.processed_items.add(pair)] *)
Definition add_processed (pair : string * string) : M unit :=
  s ← get_state;
  set_self {| base_path := base_path (self s); save_path := save_path (self s);
              metadata := metadata (self s); is_dry_run := is_dry_run (self s);
              processed_items := {[ pair ]} ∪ processed_items (self s) |}.

Definition get_total_processed (o : MediaProcessor_obj) : nat :=
  size (processed_items o).

(** The [for] loop of [_extract_taken_timestamp]. *)
Fixpoint first_taken (exif_data_list : list json) : result json :=
  match exif_data_list with
  | [] => Ok JNull
  | exif_data :: rest =>
      b ← Py.contains "taken_timestamp" exif_data;
      if b : bool then Py.getitem exif_data "taken_timestamp"
      else first_taken rest
  end.

Definition _extract_taken_timestamp (media_item : json) : result json :=
  media_metadata ← Py.get media_item "media_metadata" (JDict []);
  photo_metadata ← Py.get media_metadata "photo_metadata" (JDict []);
  exif_data_list ← Py.get photo_metadata "exif_data" (JList []);
  items ← Py.iter exif_data_list;
  first_taken items.

Definition _generate_filename (md : metadata_dict) : result string :=
  let '(_, uri_file_name) := os_path.split (uri_path md) in
  let '(_, file_ext) := os_path.splitext uri_file_name in
  dt ← datetime.fromtimestamp la_timezone (timestamp md);
  let file_dt := datetime.strftime_file dt in
  Ok (file_dt +:+ file_ext).

(** The [while os.path.exists(file_path)] loop of [_generate_save_path],
    run for at most [fuel] tests. *)
Fixpoint save_path_loop (fs : gmap string node)
    (directory file_name file_ext : string)
    (fuel : nat) (file_path : string) (counter : N) : option string :=
  match fuel with
  | O => None
  | S fuel' =>
      if os.exists_ fs file_path then
        let new_file_name := file_name +:+ "_" +:+ pretty counter +:+ file_ext in
        save_path_loop fs directory file_name file_ext fuel'
          (os_path.join directory new_file_name) (counter + 1)
      else Some file_path
  end.

(** [_generate_save_path]; [None] stands for the value the callers test
    with [if save_path is None]. The loop is given two tests more than the
    file system has nodes. *)
Definition _generate_save_path (fs : gmap string node)
    (directory base_file_name : string) : option string :=
  let '(file_name, file_ext) := os_path.splitext base_file_name in
  let file_path := os_path.join directory base_file_name in
  save_path_loop fs directory file_name file_ext (S (S (size fs))) file_path 1.

(** The body of the [try] of [_copy_non_image]. *)
Definition non_image_try : M unit :=
  md ← get_metadata;
  base_file_name ← lift (_generate_filename md);
  s ← get_state;
  match _generate_save_path (fs s) (save_directory md) base_file_name with
  | None => mret ()
  | Some save_path =>
      os.makedirs (os_path.dirname save_path);;
      shutil.copy (uri_path md) save_path;;
      os.utime save_path (timestamp md);;
      add_processed (uri_path md, save_directory md)
  end.

Definition _copy_non_image : M unit :=
  s ← get_state;
  if is_dry_run (self s) then get_metadata;; mret ()
  else try_except non_image_try (λ e, get_metadata;; mret ()).

(** The [try] of [_copy_image] up to the assignment of [save_path] ... *)
Definition image_try_save_path : M (option string) :=
  md ← get_metadata;
  base_file_name ← lift (_generate_filename md);
  s ← get_state;
  mret (_generate_save_path (fs s) (save_directory md) base_file_name).

(** ... and after it. *)
Definition image_try_rest (save_path : string) : M unit :=
  md ← get_metadata;
  exif_handler ← ExifImageHandler.__init__ (uri_path md);
  exif_handler ← lift (ExifImageHandler.set_creation_timestamp exif_handler
                         (timestamp md));
  exif_handler ← lift (ExifImageHandler.set_description exif_handler
                         (description md));
  ExifImageHandler.save exif_handler save_path;;
  add_processed (uri_path md, save_directory md).

(** The [except] clause of [_copy_image]. Its second log line formats the
    local variable [save_path]: [bound] tells whether the [try] got as far
    as assigning it. *)
Definition image_except (bound : bool) (e : exn) : M unit :=
  get_metadata;;
  if bound then _copy_non_image else raise UnboundLocalError.

Definition _copy_image : M unit := λ s,
  if is_dry_run (self s) then (get_metadata;; mret ()) s
  else
    match image_try_save_path s with
    | (s1, Raise e) => image_except false e s1
    | (s1, Ok None) => (s1, Ok ())
    | (s1, Ok (Some save_path)) =>
        try_except (image_try_rest save_path) (image_except true) s1
    end.

Definition image_extensions : list string :=
  [".jpg"; ".jpeg"; ".png"; ".gif"; ".bmp"; ".tiff"; ".webp"].

(** The dictionary [process_media_item] stores in [self.metadata], with the
    ["timestamp"] entry it adds next. *)
Definition build_metadata (base_path : string) (now : Z) (data : json)
    (uri save_directory : string) : result metadata_dict :=
  let uri_path := os_path.join base_path uri in
  description ← Py.get data "description" (JStr "");
  creation_timestamp ← Py.get data "creation_timestamp" (JInt now);
  taken_timestamp ← _extract_taken_timestamp data;
  Ok {| uri_path := uri_path; description := description;
        creation_timestamp := creation_timestamp;
        taken_timestamp := taken_timestamp;
        save_directory := save_directory;
        timestamp := Py.or taken_timestamp creation_timestamp |}.

Definition process_media_item (data : json) (save_directory : string)
  : M unit :=
  uri ← lift (Py.get data "uri" (JStr ""));
  match uri with
  | JStr uri =>
      if negb (Str.startswith uri "your_facebook_activity") then mret ()
      else
        s ← get_state;
        md ← lift (build_metadata (base_path (self s)) (now s) data uri
                     save_directory);
        set_metadata md;;
        s ← get_state;
        if bool_decide ((uri_path md, save_directory) ∈ processed_items (self s))
        then mret ()
        else
          let file_extension :=
            Str.lower (snd (os_path.splitext (uri_path md))) in
          if bool_decide (file_extension ∈ image_extensions) then _copy_image
          else _copy_non_image
  | _ => raise AttributeError            (* no [startswith] on this value *)
  end.

End WithExternals.
End MediaProcessor.

(** ** [MetaBridge.py]: the sticker directory *)

Module MetaBridge.
Section WithExternals.
Context `{Ext : Externals}.

Record args_ns := {
  args_path : string;
  args_save_path : string;
  args_dry_run : bool
}.

(** The state in which [main] starts: the global [media_processor] is
    [MediaProcessor(args.path, args.save_path, args.dry_run)]. *)
Definition start (args : args_ns) (fs : gmap string node) (now : Z) : state :=
  {| self := MediaProcessor.__init__ (args_path args) (args_save_path args)
               (args_dry_run args);
     fs := fs; now := now; ops := [] |}.

Fixpoint for_each {A} (l : list A) (body : A → M unit) : M unit :=
  match l with
  | [] => mret ()
  | x :: l' => body x;; for_each l' body
  end.

(** A run of calls of [process_media_item], as the [for] loops of the
    extractors make them: an exception that is not caught ends the run. *)
Definition process_all (items : list (json * string)) : M unit :=
  for_each items (λ '(data, save_directory),
    MediaProcessor.process_media_item data save_directory).

Definition uri_base : string :=
  "your_facebook_activity/posts/media/stickers_used/".

(** The record [process_stickers] makes up for a sticker file. *)
Definition sticker_data (file_name : string) (ctime : Z) : json :=
  JDict [("uri", JStr (os_path.join uri_base file_name));
         ("description", JStr "");
         ("creation_timestamp", JInt ctime)].

Definition process_stickers (args : args_ns) : M unit :=
  let target_path := os_path.join (args_path args) uri_base in
  let save_directory := os_path.join (args_save_path args) "stickers" in
  s ← get_state;
  if negb (os.exists_ (fs s) target_path) || negb (os.isdir (fs s) target_path)
  then mret ()
  else
    for_each (os.listdir (fs s) target_path) (λ file_name,
      let file_path := os_path.join target_path file_name in
      s ← get_state;
      if os.isfile (fs s) file_path then
        try_except
          (ctime ← os.getctime file_path;
           MediaProcessor.process_media_item (sticker_data file_name ctime)
             save_directory)
          (λ e, mret ())
      else mret ()).

End WithExternals.
End MetaBridge.

(** ** A concrete outside world, for running the model

    Pacific time under the rule in force since 2007: daylight time from the
    second Sunday of March, 10:00 UTC, to the first Sunday of November,
    09:00 UTC. An image file is one whose bytes start with [IMG]; it is a PNG
    without an EXIF block, and saving it appends the [DateTimeOriginal] it is
    given. *)

Module Demo.

(** Day number of the first Sunday on or after day [z] (1970-01-01 was a
    Thursday). *)
Definition sunday_from (z : Z) : Z := z + (7 - (z + 4) mod 7) mod 7.

Definition pacific (t : Z) : Z :=
  let y := datetime.year (datetime.of_seconds t) in
  let dst_start := sunday_from (datetime.days_from_civil y 3 8) * 86400 + 36000 in
  let dst_end := sunday_from (datetime.days_from_civil y 11 1) * 86400 + 32400 in
  if (dst_start <=? t) && (t <? dst_end) then -25200 else -28800.

Definition dump (e : exif_dict) : result string :=
  match ifds e !! "Exif" ≫= (.!! ExifIFD.DateTimeOriginal) with
  | Some (JStr dt) => Ok ("exif:" +:+ dt)
  | _ => Ok "exif:"
  end.

Definition externals : Externals := {|
  la_timezone := pacific;
  image := string;
  Image_open := λ b, if Str.startswith b "IMG" then Ok b else Raise LibraryError;
  Image_format := λ _, Some "PNG";
  Image_exif := λ _, None;
  Image_save := λ im _ ex, Ok (im +:+ "+" +:+ ex);
  piexif_load := λ _, Raise LibraryError;
  piexif_dump := dump
|}.

Definition args : MetaBridge.args_ns :=
  {| MetaBridge.args_path := "export";
     MetaBridge.args_save_path := "out";
     MetaBridge.args_dry_run := false |}.

Definition a_file (data : string) (ctime : Z) : node :=
  File {| f_data := data; f_mtime := ctime; f_ctime := ctime |}.

End Demo.

(** ** [lib/JSONFileManager.py] *)

(** What the loader takes from outside the repository: [json.load], from the
    bytes of a file, and [glob.glob], from the file system and a pattern. *)
Class Loader := {
  json_load : string → result json;
  glob_glob : gmap string node → string → list string
}.

Module JSONFileManager.
Section WithLoader.
Context `{Ld : Loader}.

Record obj := { files : list string; json_data : json }.

(** [s.endswith(suffix)] *)
Definition endswith (s suffix : string) : bool :=
  (String.length suffix <=? String.length s)%nat
  && bool_decide
       (Str.drop (String.length s - String.length suffix) s = suffix).

Definition _generate_file_list (fs : gmap string node) (search_path : string)
  : list string :=
  if os.isdir fs search_path then
    os_path.join search_path
      <$> List.filter (λ f, endswith f ".json") (os.listdir fs search_path)
  else if Str.contains "*" search_path || Str.contains "?" search_path
          || Str.contains "[" search_path then
    let matched_files := glob_glob fs search_path in
    if bool_decide (matched_files = []) then [] else matched_files
  else if os.isfile fs search_path then
    if endswith search_path ".json" then [search_path] else []
  else [].

Definition __init__ (path : string) : M obj :=
  s ← get_state;
  mret {| files := _generate_file_list (fs s) path; json_data := JDict [] |}.

(** [with open(json_file, 'r') as file: json.load(file)] *)
Definition open_and_load (json_file : string) : M json :=
  s ← get_state;
  match fs s !! json_file with
  | Some (File f) => lift (json_load (f_data f))
  | Some Dir => raise IsADirectoryError
  | None => raise FileNotFoundError
  end.

(** [load_json_file]: the object with its [json_data] assigned, and the
    value returned. *)
Definition load_json_file (o : obj) (json_file : string) : M (obj * json) :=
  json_data ← try_except (open_and_load json_file) (λ e, mret (JDict []));
  mret ({| files := files o; json_data := json_data |}, json_data).

End WithLoader.
End JSONFileManager.

(** ** [MediaProcessor.extract_attachment_data]

    A generator: what it yields, and the exception that ends the iteration
    when it meets a value it cannot handle. The caller sees the yielded
    values first. *)

Module Attachments.

Fixpoint attachments_loop (attachments : list json) : list json * option exn :=
  match attachments with
  | [] => ([], None)
  | attachment :: rest =>
      match Py.contains "data" attachment with
      | Raise e => ([], Some e)
      | Ok false => attachments_loop rest
      | Ok true =>
          match Py.getitem attachment "data" ≫= Py.iter with
          | Raise e => ([], Some e)
          | Ok yielded =>
              let '(more, e) := attachments_loop rest in (yielded ++ more, e)
          end
      end
  end.

Definition extract_attachment_data (entry : json) : list json * option exn :=
  match Py.get entry "attachments" (JList []) ≫= Py.iter with
  | Raise e => ([], Some e)
  | Ok attachments => attachments_loop attachments
  end.

End Attachments.

(** ** [MetaBridge.py]: the manifests and [main] *)

Module Extractors.
Section WithExternals.
Context `{Ext : Externals} `{Ld : Loader}.
Import MetaBridge.

(** [file_manager = JSONFileManager(target_path)] and the loop
    [for json_file in file_manager.files: data = file_manager.load_json_file(json_file)]
    that every extractor has. The list of files is made once, before the
    loop; the [json_data] each call assigns is read by no one, so the loop
    goes on with [data] alone. *)
Definition for_each_manifest (target_path : string) (body : json → M unit)
  : M unit :=
  file_manager ← JSONFileManager.__init__ target_path;
  for_each (JSONFileManager.files file_manager) (λ json_file,
    '(_, data) ← JSONFileManager.load_json_file file_manager json_file;
    body data).

(** [for entry in data.get(json_header_key, []): body(entry)] *)
Definition for_each_entry (data : json) (json_header_key : string)
    (body : json → M unit) : M unit :=
  entries ← lift (Py.get data json_header_key (JList []));
  entries ← lift (Py.iter entries);
  for_each entries body.

(** The loop of the posts, stories and reels:
    [for attachment_data in media_processor.extract_attachment_data(entry):
       if 'media' in attachment_data:
         media_processor.process_media_item(attachment_data['media'], save_directory)]
    The generator reads [entry] only, which no call changes: the values it
    yields are taken one by one, and the exception that ends it, if any,
    comes after the last of them has been processed. *)
Definition process_attachments (entry : json) (save_directory : string)
  : M unit :=
  let '(yielded, e) := Attachments.extract_attachment_data entry in
  for_each yielded (λ attachment_data,
    has_media ← lift (Py.contains "media" attachment_data);
    if has_media : bool then
      media ← lift (Py.getitem attachment_data "media");
      MediaProcessor.process_media_item media save_directory
    else mret ());;
  match e with
  | Some e => raise e
  | None => mret ()
  end.

(** [os.path.join(directory, name)] for a [name] taken from a manifest. *)
Definition join_value (directory : string) (name : json) : result string :=
  match name with
  | JStr name => Ok (os_path.join directory name)
  | _ => Raise TypeError
  end.

Definition extract_albums (args : args_ns) : M unit :=
  let target_path :=
    os_path.join (args_path args) "your_facebook_activity/posts/album/*.json" in
  let json_header_key := "photos" in
  for_each_manifest target_path (λ data,
    album_name ← lift (Py.get data "name" (JStr ""));
    save_directory ←
      lift (join_value (os_path.join (args_save_path args) "albums") album_name);
    for_each_entry data json_header_key (λ media_item,
      MediaProcessor.process_media_item media_item save_directory)).

Definition extract_posts (args : args_ns) : M unit :=
  let target_path :=
    os_path.join (args_path args)
      "your_facebook_activity/posts/your_posts__check_ins__photos_and_videos*.json" in
  let save_directory := os_path.join (args_save_path args) "posts" in
  for_each_manifest target_path (λ data,
    posts ← lift (Py.iter data);
    for_each posts (λ post, process_attachments post save_directory)).

Definition extract_misc (args : args_ns) : M unit :=
  let target_path :=
    os_path.join (args_path args)
      "your_facebook_activity/posts/your_uncategorized_photos*.json" in
  let save_directory :=
    os_path.join (args_save_path args) "uncategorized_photos" in
  let json_header_key := "other_photos_v2" in
  for_each_manifest target_path (λ data,
    for_each_entry data json_header_key (λ entry,
      MediaProcessor.process_media_item entry save_directory)).

Definition extract_videos (args : args_ns) : M unit :=
  let target_path :=
    os_path.join (args_path args)
      "your_facebook_activity/posts/your_videos*.json" in
  let save_directory := os_path.join (args_save_path args) "videos" in
  let json_header_key := "videos_v2" in
  for_each_manifest target_path (λ data,
    for_each_entry data json_header_key (λ entry,
      MediaProcessor.process_media_item entry save_directory)).

Definition extract_stories (args : args_ns) : M unit :=
  let target_path :=
    os_path.join (args_path args)
      "your_facebook_activity/stories/archived_stories*.json" in
  let save_directory := os_path.join (args_save_path args) "stories" in
  let json_header_key := "archived_stories_v2" in
  for_each_manifest target_path (λ data,
    for_each_entry data json_header_key (λ entry,
      process_attachments entry save_directory)).

Definition process_reels (args : args_ns) : M unit :=
  let target_path :=
    os_path.join (args_path args)
      "your_facebook_activity/short_videos/your_reels*.json" in
  let save_directory := os_path.join (args_save_path args) "reels" in
  let json_header_key := "lasso_videos_v2" in
  for_each_manifest target_path (λ data,
    for_each_entry data json_header_key (λ entry,
      process_attachments entry save_directory)).

Definition main (args : args_ns) : M unit :=
  extract_posts args;;
  extract_albums args;;
  extract_misc args;;
  extract_videos args;;
  extract_stories args;;
  process_reels args;;
  process_stickers args.

End WithExternals.
End Extractors.

(** * Properties *)

(** ** Strings and paths *)

Local Arguments Ascii.eqb : simpl never.

Section Strings.

Lemma startswith_empty (s : string) : Str.startswith s "" = true.
Proof. by destruct s. Qed.

Lemma startswith_cons (a b : ascii) (s pre : string) :
  Str.startswith (String b s) (String a pre)
  = Ascii.eqb a b && Str.startswith s pre.
Proof. reflexivity. Qed.

Lemma app_cons (a : ascii) (s t : string) :
  String a s +:+ t = String a (s +:+ t).
Proof. reflexivity. Qed.

Lemma app_empty_l (t : string) : "" +:+ t = t.
Proof. reflexivity. Qed.

Lemma app_empty_r (s : string) : s +:+ "" = s.
Proof. induction s as [|a s IH]; [done|]. by rewrite app_cons, IH. Qed.

Lemma app_assoc_str (s1 s2 s3 : string) :
  (s1 +:+ s2) +:+ s3 = s1 +:+ s2 +:+ s3.
Proof. induction s1 as [|a s1 IH]; [done|]. by rewrite !app_cons, IH. Qed.

Lemma length_app_str (s1 s2 : string) :
  String.length (s1 +:+ s2) = (String.length s1 + String.length s2)%nat.
Proof. induction s1 as [|a s1 IH]; [done|]. rewrite app_cons. cbn. by rewrite IH. Qed.

Lemma app_inj_tail (s1 s2 t : string) : s1 +:+ t = s2 +:+ t → s1 = s2.
Proof.
  revert s2. induction s1 as [|a s1 IH]; intros [|b s2] Heq.
  - done.
  - apply (f_equal String.length) in Heq.
    rewrite app_empty_l, app_cons in Heq. cbn in Heq.
    rewrite length_app_str in Heq. lia.
  - apply (f_equal String.length) in Heq.
    rewrite app_empty_l, app_cons in Heq. cbn in Heq.
    rewrite length_app_str in Heq. lia.
  - rewrite !app_cons in Heq. injection Heq as -> Heq. f_equal. by apply IH.
Qed.

Lemma take_drop (n : nat) (s : string) : Str.take n s +:+ Str.drop n s = s.
Proof.
  revert s. induction n as [|n IH]; intros [|a s]; cbn; try done.
  by rewrite app_cons, IH.
Qed.

Lemma splitext_app (p : string) :
  (os_path.splitext p).1 +:+ (os_path.splitext p).2 = p.
Proof.
  unfold os_path.splitext. case_match; cbn.
  - apply take_drop.
  - apply app_empty_r.
Qed.


(** Where [join] puts its second argument does not depend on what follows
    the first character of that argument. *)
Definition join_prefix (a b : string) : string :=
  if Str.startswith b "/" then ""
  else if bool_decide (a = "") || Str.endswith_char a "/" then a
  else a +:+ "/".

Lemma join_as_prefix (a b : string) : os_path.join a b = join_prefix a b +:+ b.
Proof.
  unfold os_path.join, join_prefix. repeat case_match; try done.
  by rewrite app_assoc_str.
Qed.

Lemma join_prefix_app (a b c c' : string) :
  c ≠ "" → c' ≠ "" → Str.startswith c "/" = Str.startswith c' "/" →
  join_prefix a (b +:+ c) = join_prefix a (b +:+ c').
Proof.
  intros Hc Hc' Heq. unfold join_prefix.
  assert (Str.startswith (b +:+ c) "/" = Str.startswith (b +:+ c') "/") as ->;
    [|done].
  destruct b as [|x b]; [by rewrite !app_empty_l|].
  by rewrite !app_cons, !startswith_cons, !startswith_empty.
Qed.

End Strings.

(** ** Searching a path for its separators and dots *)

Section Rfind.

(** The character [c] does not occur in [s]. *)
Definition lacks (c : ascii) (s : string) : bool :=
  Str.forallb (λ a, negb (Ascii.eqb a c)) s.

Lemma lacks_cons c a s : lacks c (String a s) = negb (Ascii.eqb a c) && lacks c s.
Proof. reflexivity. Qed.

Lemma lacks_app c s t : lacks c (s +:+ t) = lacks c s && lacks c t.
Proof.
  induction s as [|a s IH]; [done|].
  by rewrite app_cons, !lacks_cons, IH, andb_assoc.
Qed.

Lemma lacks_drop c n s : lacks c s = true → lacks c (Str.drop n s) = true.
Proof.
  revert s. induction n as [|n IH]; intros [|a s]; cbn [Str.drop]; try done.
  rewrite lacks_cons. intros [_ H]%andb_true_iff. by apply IH.
Qed.

Lemma drop_drop n m s : Str.drop n (Str.drop m s) = Str.drop (m + n) s.
Proof.
  revert s. induction m as [|m IH]; intros s; [done|].
  destruct s as [|a s]; cbn [Str.drop plus]; [by destruct n|]. apply IH.
Qed.

Lemma take_app_length s t : Str.take (String.length s) (s +:+ t) = s.
Proof. induction s as [|a s IH]; [by destruct t|]. rewrite app_cons. cbn. by rewrite IH. Qed.

Lemma drop_app_length s t : Str.drop (String.length s) (s +:+ t) = t.
Proof. induction s as [|a s IH]; [done|]. rewrite app_cons. cbn. by rewrite IH. Qed.

Lemma rfind_from_cons c a s i last :
  Str.rfind_from c (String a s) i last
  = Str.rfind_from c s (i + 1) (if Ascii.eqb a c then i else last).
Proof. reflexivity. Qed.

(** Where the search starts and what it returns for "not found" only shift
    the result. *)
Lemma rfind_from_shift c s i last :
  Str.rfind_from c s i last
  = if lacks c s then last else i + Str.rfind c s.
Proof.
  unfold Str.rfind. revert i last.
  induction s as [|a s IH]; intros i last; [done|].
  rewrite !rfind_from_cons, lacks_cons.
  rewrite (IH (i + 1)), (IH (0 + 1)).
  destruct (lacks c s); destruct (Ascii.eqb a c); cbn; lia.
Qed.

Lemma rfind_lacks c s : lacks c s = true → Str.rfind c s = -1.
Proof. intros H. unfold Str.rfind. by rewrite rfind_from_shift, H. Qed.

Lemma rfind_cons c a s :
  Str.rfind c (String a s)
  = if lacks c s then (if Ascii.eqb a c then 0 else -1) else 1 + Str.rfind c s.
Proof. unfold Str.rfind at 1. by rewrite rfind_from_cons, rfind_from_shift. Qed.

Lemma rfind_app c s t :
  Str.rfind c (s +:+ t)
  = if lacks c t then Str.rfind c s else Z.of_nat (String.length s) + Str.rfind c t.
Proof.
  induction s as [|a s IH].
  - rewrite app_empty_l. destruct (lacks c t) eqn:H; [by apply rfind_lacks|].
    cbn. lia.
  - rewrite app_cons, !rfind_cons, lacks_app, IH.
    destruct (lacks c s), (lacks c t); cbn [andb String.length]; lia.
Qed.

(** What [rfind] finds: the last occurrence. *)
Lemma rfind_spec c s :
  if lacks c s then Str.rfind c s = -1
  else ∃ t, 0 ≤ Str.rfind c s < Z.of_nat (String.length s)
            ∧ Str.drop (Z.to_nat (Str.rfind c s)) s = String c t
            ∧ lacks c t = true.
Proof.
  induction s as [|a s IH]; [done|].
  rewrite lacks_cons, rfind_cons.
  destruct (lacks c s) eqn:Hs.
  - destruct (Ascii.eqb a c) eqn:Ha; cbn [negb andb]; [|done].
    apply Ascii.eqb_eq in Ha as ->. exists s. cbn. split; [lia|done].
  - rewrite andb_false_r. destruct IH as (t & Hr & Hd & Ht).
    exists t. cbn [String.length]. split; [lia|]. split; [|done].
    replace (Z.to_nat (1 + Str.rfind c s)) with (S (Z.to_nat (Str.rfind c s)))
      by lia.
    done.
Qed.


Lemma rfind_lower_bound c s : -1 ≤ Str.rfind c s < Z.of_nat (String.length s).
Proof.
  pose proof (rfind_spec c s) as H. destruct (lacks c s); [lia|].
  destruct H as (t & ? & _). lia.
Qed.

Lemma drop_succ n s a t : Str.drop n s = String a t → Str.drop (S n) s = t.
Proof.
  replace (S n) with (n + 1)%nat by lia. rewrite <- drop_drop.
  by intros ->.
Qed.

(** The last component of a path has no separator. *)
Lemma split_tail_lacks p : lacks "/" (os_path.split p).2 = true.
Proof.
  unfold os_path.split. cbn [snd].
  pose proof (rfind_spec "/" p) as H.
  destruct (lacks "/" p) eqn:Hp.
  - rewrite H. by apply lacks_drop.
  - destruct H as (t & Hr & Hd & Ht).
    replace (Z.to_nat (Str.rfind "/" p + 1))
      with (S (Z.to_nat (Str.rfind "/" p))) by lia.
    by rewrite (drop_succ _ _ _ _ Hd).
Qed.

(** An extension is empty, or a dot followed by characters other than the
    dot and the separator. *)
Lemma splitext_ext p :
  (os_path.splitext p).2 = ""
  ∨ ∃ e, (os_path.splitext p).2 = String "." e
         ∧ lacks "." e = true ∧ lacks "/" e = true.
Proof.
  unfold os_path.splitext.
  destruct (_ && _) eqn:Hc; [|by left]. right. cbn [snd].
  apply andb_true_iff in Hc as [Hlt%Z.ltb_lt _].
  pose proof (rfind_lower_bound "/" p) as Hsep.
  pose proof (rfind_spec "." p) as Hdot.
  destruct (lacks "." p); [lia|]. destruct Hdot as (e & Hr & Hd & He).
  exists e. split; [done|]. split; [done|].
  apply drop_succ in Hd. rewrite <- Hd.
  pose proof (rfind_spec "/" p) as Hs.
  destruct (lacks "/" p) eqn:Hp; [by apply lacks_drop|].
  destruct Hs as (u & _ & Hu & Hlu). apply drop_succ in Hu.
  replace (S (Z.to_nat (Str.rfind "." p)))
    with (S (Z.to_nat (Str.rfind "/" p))
          + (Z.to_nat (Str.rfind "." p) - Z.to_nat (Str.rfind "/" p)))%nat
    by lia.
  rewrite <- drop_drop, Hu. by apply lacks_drop.
Qed.

Lemma digit_is_not n c :
  (N_of_ascii c < 48 ∨ 57 < N_of_ascii c)%N →
  Ascii.eqb (datetime.digit n) c = false.
Proof.
  intros Hc. apply Ascii.eqb_neq. intros <-.
  unfold datetime.digit in Hc.
  pose proof (Z.mod_pos_bound n 10 ltac:(lia)).
  rewrite N_ascii_embedding in Hc by lia. lia.
Qed.

Lemma strftime_file_lacks_sep f : lacks "/" (datetime.strftime_file f) = true.
Proof.
  unfold datetime.strftime_file, datetime.d4, datetime.d2.
  rewrite !lacks_app, !lacks_cons. 
  rewrite !digit_is_not by (cbn; lia). done.
Qed.

Lemma strftime_file_head f :
  ∃ rest, datetime.strftime_file f
          = String (datetime.digit (datetime.year f / 1000)) rest.
Proof. by eexists. Qed.

Lemma strftime_file_length f : String.length (datetime.strftime_file f) = 19%nat.
Proof. reflexivity. Qed.

(** [_generate_save_path] finds again the extension [_generate_filename]
    appended, when there is one. *)
Lemma splitext_dated_name f e :
  lacks "." e = true → lacks "/" e = true →
  os_path.splitext (datetime.strftime_file f +:+ String "." e)
  = (datetime.strftime_file f, String "." e).
Proof.
  intros He Hs. unfold os_path.splitext.
  assert (Str.rfind "/" (datetime.strftime_file f +:+ String "." e) = -1) as ->.
  { apply rfind_lacks. rewrite lacks_app, strftime_file_lacks_sep, lacks_cons.
    by rewrite Hs. }
  assert (Str.rfind "." (datetime.strftime_file f +:+ String "." e) = 19) as ->.
  { rewrite rfind_app, lacks_cons, rfind_cons, He, strftime_file_length.
    done. }
  change (Z.to_nat 19) with (String.length (datetime.strftime_file f)).
  rewrite take_app_length, drop_app_length.
  destruct (strftime_file_head f) as [rest ->].
  rewrite app_cons.
  change (Z.to_nat (-1 + 1)) with 0%nat.
  change (Z.to_nat (19 - (-1 + 1))) with 19%nat.
  cbn [Z.ltb Z.compare andb os_path.has_non_dot String.get].
  by rewrite digit_is_not by (cbn; lia).
Qed.

End Rfind.

(** ** The destination path is always free (C9) *)

Section SavePath.
Import MediaProcessor.

(** The name tried for the counter value [c]. *)
Definition candidate (directory file_name file_ext : string) (c : N) : string :=
  os_path.join directory (file_name +:+ "_" +:+ pretty c +:+ file_ext).

Lemma candidate_inj d fn fe : Inj (=) (=) (candidate d fn fe).
Proof.
  intros c c'. unfold candidate. rewrite !join_as_prefix.
  rewrite (join_prefix_app d fn _ ("_" +:+ pretty c' +:+ fe)); [|done..].
  intros Heq%String.app_inj%String.app_inj.
  rewrite !app_cons, !app_empty_l in Heq.
  injection Heq as Heq. apply app_inj_tail in Heq. by apply (inj pretty).
Qed.

Lemma save_path_loop_free fs d fn fe fuel path c p :
  save_path_loop fs d fn fe fuel path c = Some p → os.exists_ fs p = false.
Proof.
  revert path c. induction fuel as [|fuel IH]; intros path c; cbn; [done|].
  destruct (os.exists_ fs path) eqn:Hex; [apply IH|].
  by intros [= <-].
Qed.

Lemma save_path_loop_exhausted fs d fn fe fuel path c :
  save_path_loop fs d fn fe fuel path c = None →
  ((0 < fuel)%nat → os.exists_ fs path = true) ∧
  ∀ k : nat, (S k < fuel)%nat →
    os.exists_ fs (candidate d fn fe (c + N.of_nat k)) = true.
Proof.
  revert path c. induction fuel as [|fuel IH]; intros path c; cbn.
  { intros _. split; intros; lia. }
  destruct (os.exists_ fs path) eqn:Hex; [|done].
  intros [Hfirst Hrest]%IH. split; [done|].
  intros [|k] Hk.
  - rewrite N.add_0_r. apply Hfirst. lia.
  - replace (c + N.of_nat (S k))%N with (c + 1 + N.of_nat k)%N by lia.
    apply Hrest. lia.
Qed.

Lemma exists_elem_of_dom (fs : gmap string node) p :
  os.exists_ fs p = true ↔ p ∈ dom fs.
Proof.
  unfold os.exists_. rewrite bool_decide_eq_true. by rewrite elem_of_dom.
Qed.

(** More distinct names than nodes cannot all exist. *)
Lemma too_many_candidates (fs : gmap string node) d fn fe (c : N) :
  ¬ ∀ k : nat, (k < S (size fs))%nat →
      os.exists_ fs (candidate d fn fe (c + N.of_nat k)) = true.
Proof.
  intros Hall.
  set (l := (λ k : nat, candidate d fn fe (c + N.of_nat k)) <$> seq 0 (S (size fs))).
  assert (NoDup l) as Hnd.
  { apply NoDup_fmap_2_strong; [|apply NoDup_seq].
    intros k k' _ _ Heq%candidate_inj. lia. }
  assert (list_to_set l ⊆ dom fs) as Hsub.
  { intros p [k [-> Hk%elem_of_seq]]%elem_of_list_to_set%list_elem_of_fmap.
    apply exists_elem_of_dom, Hall. lia. }
  apply subseteq_size in Hsub.
  rewrite size_list_to_set, size_dom in Hsub by done.
  unfold l in Hsub. rewrite length_fmap, length_seq in Hsub. lia.
Qed.

End SavePath.

(** ** Running a computation *)

Section MonadLaws.
Context {A B : Type}.

Lemma run_bind (m : M A) (f : A → M B) s :
  (m ≫= f) s = match m s with
               | (s', Ok a) => f a s'
               | (s', Raise e) => (s', Raise e)
               end.
Proof. reflexivity. Qed.

Lemma run_get_state (f : state → M B) s : (get_state ≫= f) s = f s s.
Proof. reflexivity. Qed.

Lemma run_ret (a : A) (f : A → M B) s : (mret a ≫= f) s = f a s.
Proof. reflexivity. Qed.

Lemma run_lift_ok (a : A) (f : A → M B) s : (lift (Ok a) ≫= f) s = f a s.
Proof. reflexivity. Qed.

Lemma run_lift_raise e (f : A → M B) s :
  (lift (Raise e) ≫= f) s = (s, Raise e).
Proof. reflexivity. Qed.

Lemma run_raise e (f : A → M B) s : (raise e ≫= f) s = (s, Raise e).
Proof. reflexivity. Qed.

End MonadLaws.

Lemma run_assoc {A B C} (m : M A) (g : A → M B) (f : B → M C) s :
  ((m ≫= g) ≫= f) s = (m ≫= λ a, g a ≫= f) s.
Proof. rewrite !run_bind. by destruct (m s) as [? []]. Qed.

Lemma run_mret {A} (a : A) s : (mret a : M A) s = (s, Ok a).
Proof. reflexivity. Qed.

Lemma run_raise_end {A} e s : (raise e : M A) s = (s, Raise e).
Proof. reflexivity. Qed.

Ltac run :=
  repeat first
    [ rewrite run_assoc | rewrite run_get_state | rewrite run_ret | rewrite run_lift_ok
    | rewrite run_lift_raise | rewrite run_raise | rewrite run_mret
    | rewrite run_raise_end ].

(** ** What a computation leaves alone *)

Section Preservation.

(** [m] relates every state it is started in to the state it ends in,
    whether it returns or raises. *)
Definition preserves {A} (R : relation state) (m : M A) : Prop :=
  ∀ s s' r, m s = (s', r) → R s s'.

Context (R : relation state) `{!Reflexive R, !Transitive R}.

Lemma preserves_ret {A} (a : A) : preserves R (mret a).
Proof. intros s s' r [= <- <-]. reflexivity. Qed.

Lemma preserves_raise {A} e : preserves R (raise e : M A).
Proof. intros s s' r [= <- <-]. reflexivity. Qed.

Lemma preserves_lift {A} (x : result A) : preserves R (lift x).
Proof. intros s s' r [= <- <-]. reflexivity. Qed.

Lemma preserves_get_state : preserves R get_state.
Proof. intros s s' r [= <- <-]. reflexivity. Qed.

Lemma preserves_bind {A B} (m : M A) (f : A → M B) :
  preserves R m → (∀ a, preserves R (f a)) → preserves R (m ≫= f).
Proof.
  intros Hm Hf s s' r. unfold mbind, M_bind.
  destruct (m s) as [s1 [a|e]] eqn:Hms.
  - intros Hfa. etrans; [by eapply Hm | by eapply Hf].
  - intros [= <- <-]. by eapply Hm.
Qed.

Lemma preserves_try_except {A} (m : M A) (h : exn → M A) :
  preserves R m → (∀ e, preserves R (h e)) → preserves R (try_except m h).
Proof.
  intros Hm Hh s s' r. unfold try_except.
  destruct (m s) as [s1 [a|e]] eqn:Hms.
  - intros [= <- <-]. by eapply Hm.
  - intros Hhe. etrans; [by eapply Hm | by eapply Hh].
Qed.

End Preservation.

(** Only the file system and the list of calls differ. *)
Definition same_self (s s' : state) : Prop :=
  self s' = self s ∧ now s' = now s.

(** As [same_self], but pairs may have been added to [processed_items]. *)
Definition same_config (s s' : state) : Prop :=
  base_path (self s') = base_path (self s) ∧
  save_path (self s') = save_path (self s) ∧
  metadata (self s') = metadata (self s) ∧
  is_dry_run (self s') = is_dry_run (self s) ∧
  processed_items (self s) ⊆ processed_items (self s') ∧
  now s' = now s.

Global Instance same_self_refl : Reflexive same_self.
Proof. by intros s. Qed.
Global Instance same_self_trans : Transitive same_self.
Proof. intros s1 s2 s3 [??] [??]. split; congruence. Qed.
Global Instance same_config_refl : Reflexive same_config.
Proof. by intros s. Qed.
Global Instance same_config_trans : Transitive same_config.
Proof.
  intros s1 s2 s3 (?&?&?&?&?&?) (?&?&?&?&?&?).
  repeat split; try congruence. set_solver.
Qed.

Lemma same_self_config s s' : same_self s s' → same_config s s'.
Proof. intros [Hs Hn]. unfold same_config. by rewrite Hs, Hn. Qed.

Lemma preserves_weaken {A} (R R' : relation state) (m : M A) :
  (∀ s s', R s s' → R' s s') → preserves R m → preserves R' m.
Proof. intros HR Hm s s' r Hrun. eapply HR, Hm, Hrun. Qed.

Create HintDb preserves discriminated.
#[global] Hint Resolve preserves_ret preserves_raise preserves_lift
  preserves_get_state : preserves.

Ltac preserves_step :=
  first
    [ apply preserves_bind; [apply _ | | intros ?]
    | apply preserves_try_except; [apply _ | | intros ?]
    | apply preserves_ret; apply _
    | apply preserves_raise; apply _
    | apply preserves_lift; apply _
    | apply preserves_get_state; apply _
    | case_match ].

Section FsPrimitives.

Lemma set_fs_same_self op fs' : preserves same_self (set_fs op fs').
Proof. by intros s s' r [= <- <-]. Qed.

Lemma makedirs_same_self d : preserves same_self (os.makedirs d).
Proof. unfold os.makedirs. repeat preserves_step; apply set_fs_same_self. Qed.

Lemma utime_same_self p t : preserves same_self (os.utime p t).
Proof. unfold os.utime. repeat preserves_step; apply set_fs_same_self. Qed.

Lemma copy_same_self src dst : preserves same_self (shutil.copy src dst).
Proof. unfold shutil.copy. repeat preserves_step; apply set_fs_same_self. Qed.

Lemma getctime_same_self p : preserves same_self (os.getctime p).
Proof. unfold os.getctime. repeat preserves_step. Qed.

End FsPrimitives.

Section Branches.
Context `{Ext : Externals}.
Import MediaProcessor.

Lemma handler_init_same_self uri : preserves same_self (ExifImageHandler.__init__ uri).
Proof.
  unfold ExifImageHandler.__init__, ExifImageHandler._load_image_exif,
    ExifImageHandler.open_image.
  repeat preserves_step.
Qed.

Lemma handler_save_same_self h p : preserves same_self (ExifImageHandler.save h p).
Proof.
  unfold ExifImageHandler.save, ExifImageHandler.img_save,
    ExifImageHandler.update_file_timestamps.
  repeat preserves_step;
    first [apply makedirs_same_self | apply utime_same_self
          | apply set_fs_same_self].
Qed.

Lemma get_metadata_same_self : preserves same_self get_metadata.
Proof. unfold get_metadata. repeat preserves_step. Qed.

Lemma add_processed_same_config pair : preserves same_config (add_processed pair).
Proof.
  unfold add_processed, set_self. intros s s' r.
  unfold mbind, M_bind, get_state. intros [= <- <-].
  repeat split; cbn; try done. set_solver.
Qed.

Local Ltac from_same_self :=
  eapply preserves_weaken; [apply same_self_config|];
  first [ apply get_metadata_same_self | apply makedirs_same_self
        | apply utime_same_self | apply copy_same_self
        | apply handler_init_same_self | apply handler_save_same_self ].

Lemma non_image_try_same_config : preserves same_config non_image_try.
Proof.
  unfold non_image_try.
  repeat (first [from_same_self | apply add_processed_same_config
                | preserves_step]).
Qed.

Lemma copy_non_image_same_config : preserves same_config _copy_non_image.
Proof.
  unfold _copy_non_image.
  repeat (first [from_same_self | apply non_image_try_same_config
                | preserves_step]).
Qed.

Lemma image_try_save_path_same_config : preserves same_config image_try_save_path.
Proof.
  unfold image_try_save_path. repeat (first [from_same_self | preserves_step]).
Qed.

Lemma image_try_rest_same_config p : preserves same_config (image_try_rest p).
Proof.
  unfold image_try_rest.
  repeat (first [from_same_self | apply add_processed_same_config
                | preserves_step]).
Qed.

Lemma image_except_same_config b e : preserves same_config (image_except b e).
Proof.
  unfold image_except.
  repeat (first [from_same_self | apply copy_non_image_same_config
                | preserves_step]).
Qed.

Lemma copy_image_same_config : preserves same_config _copy_image.
Proof.
  intros s s' r. unfold _copy_image.
  destruct (is_dry_run (self s)).
  { apply (preserves_bind same_config); [from_same_self|].
    intros ?. apply preserves_ret, _. }
  destruct (image_try_save_path s) as [s1 [[p|]|e]] eqn:Htry;
    apply image_try_save_path_same_config in Htry.
  - intros Hrest. etrans; [done|].
    revert Hrest. apply preserves_try_except; [apply _ | |].
    + apply image_try_rest_same_config.
    + intros ?. apply image_except_same_config.
  - by intros [= <- <-].
  - intros Hexc. etrans; [done|]. by eapply image_except_same_config.
Qed.

End Branches.

(** ** Claims about skipping, dry runs and repeated items *)

Section Resolver.
Context `{Ext : Externals}.
Import MediaProcessor.

(** The loop of [_generate_save_path] ends on a path that is free. *)
Lemma save_path_found
    (fs : gmap string node) (directory base_file_name : string) :
  ∃ p, _generate_save_path fs directory base_file_name = Some p
       ∧ os.exists_ fs p = false.
Proof.
  unfold _generate_save_path.
  destruct (os_path.splitext base_file_name) as [file_name file_ext].
  destruct (save_path_loop _ _ _ _ _ _ _) as [p|] eqn:Hloop.
  - exists p. split; [done|]. by eapply save_path_loop_free.
  - apply save_path_loop_exhausted in Hloop as [_ Hall].
    destruct (too_many_candidates fs directory file_name file_ext 1).
    intros k Hk. apply Hall. lia.
Qed.

(** C9. For every directory and base file name, [_generate_save_path]
    returns a path (never the [None] the two writer branches test for), and
    that path does not exist in the file system at that moment. *)
Theorem generate_save_path_returns_free_path
    (fs : gmap string node) (directory base_file_name : string) :
  ∃ p, _generate_save_path fs directory base_file_name = Some p
       ∧ os.exists_ fs p = false.
Proof.
  unfold _generate_save_path.
  destruct (os_path.splitext base_file_name) as [file_name file_ext].
  destruct (save_path_loop _ _ _ _ _ _ _) as [p|] eqn:Hloop.
  - exists p. split; [done|]. by eapply save_path_loop_free.
  - apply save_path_loop_exhausted in Hloop as [_ Hall].
    destruct (too_many_candidates fs directory file_name file_ext 1).
    intros k Hk. apply Hall. lia.
Qed.

(** The guard [if save_path is None: return] of [_copy_image] is never taken. *)
Lemma image_try_save_path_not_None s s' :
  image_try_save_path s ≠ (s', Ok None).
Proof.
  unfold image_try_save_path, get_metadata. run.
  destruct (metadata (self s)) as [md|]; run; [|done].
  destruct (_generate_filename md) as [base|]; run; [|done].
  destruct (save_path_found (fs s) (save_directory md) base)
    as (p & -> & _).
  done.
Qed.

(** C10. A record without a [uri] key is read as having the empty URI, which
    does not start with the export-root marker: the call returns normally
    and leaves the whole state, the Processed-Set included, as it was. *)
Theorem record_without_uri_is_skipped
    (kv : list (string * json)) (save_directory : string) (s : state) :
  Py.assoc "uri" kv = None →
  Py.get (JDict kv) "uri" (JStr "") = Ok (JStr "")
  ∧ Str.startswith "" "your_facebook_activity" = false
  ∧ process_media_item (JDict kv) save_directory s = (s, Ok ()).
Proof.
  intros Hno.
  assert (Py.get (JDict kv) "uri" (JStr "") = Ok (JStr "")) as Hget.
  { unfold Py.get. by rewrite Hno. }
  repeat split; [done|].
  unfold process_media_item. by rewrite Hget.
Qed.

(** One call in dry-run mode touches nothing but [self.metadata]. *)
Definition dry_step (s s' : state) : Prop :=
  fs s' = fs s ∧ ops s' = ops s ∧ now s' = now s ∧
  processed_items (self s') = processed_items (self s) ∧
  is_dry_run (self s') = is_dry_run (self s).

Global Instance dry_step_refl : Reflexive dry_step.
Proof. by intros s. Qed.
Global Instance dry_step_trans : Transitive dry_step.
Proof. intros s1 s2 s3 (?&?&?&?&?) (?&?&?&?&?). repeat split; congruence. Qed.

Lemma copy_image_dry s :
  is_dry_run (self s) = true → dry_step s (_copy_image s).1.
Proof.
  intros Hdry. unfold _copy_image. rewrite Hdry.
  unfold get_metadata. run. by destruct (metadata (self s)).
Qed.

Lemma copy_non_image_dry s :
  is_dry_run (self s) = true → dry_step s (_copy_non_image s).1.
Proof.
  intros Hdry. unfold _copy_non_image. run. rewrite Hdry.
  unfold get_metadata. run. by destruct (metadata (self s)).
Qed.

(** The state once [self.metadata] has been assigned. *)
Definition with_metadata (md : metadata_dict) (s : state) : state :=
  {| self := {| base_path := base_path (self s);
                save_path := save_path (self s);
                metadata := Some md;
                is_dry_run := is_dry_run (self s);
                processed_items := processed_items (self s) |};
     fs := fs s; now := now s; ops := ops s |}.

(** The end of [process_media_item]: the test of the Processed-Set and the
    choice of the branch. *)
Definition dispatch (md : metadata_dict) (save_directory : string) : M unit :=
  λ s,
  if bool_decide ((uri_path md, save_directory) ∈ processed_items (self s))
  then (s, Ok ())
  else if bool_decide (Str.lower (os_path.splitext (uri_path md)).2
                       ∈ image_extensions)
       then _copy_image s
       else _copy_non_image s.

Lemma process_media_item_run data save_directory s :
  process_media_item data save_directory s =
  match Py.get data "uri" (JStr "") with
  | Ok (JStr uri) =>
      if negb (Str.startswith uri "your_facebook_activity") then (s, Ok ())
      else
        match build_metadata (base_path (self s)) (now s) data uri
                save_directory with
        | Ok md => dispatch md save_directory (with_metadata md s)
        | Raise e => (s, Raise e)
        end
  | Ok _ => (s, Raise AttributeError)
  | Raise e => (s, Raise e)
  end.
Proof.
  unfold process_media_item.
  destruct (Py.get data "uri" (JStr "")) as [[| | |uri| |]|]; run; try done.
  destruct (negb _); [done|]. run.
  destruct (build_metadata _ _ _ _ _) as [md|]; run; [|done].
  unfold set_metadata. run. unfold set_self. rewrite run_bind. run.
  unfold dispatch, with_metadata.
  by repeat case_match.
Qed.

Lemma process_media_item_dry data save_directory s :
  is_dry_run (self s) = true →
  dry_step s (process_media_item data save_directory s).1.
Proof.
  intros Hdry. rewrite process_media_item_run.
  destruct (Py.get data "uri" (JStr "")) as [[| | |uri| |]|]; try done.
  destruct (negb _); [done|].
  destruct (build_metadata _ _ _ _ _) as [md|]; [|done].
  assert (dry_step s (with_metadata md s)) as Hsm by done.
  unfold dispatch. destruct (bool_decide _); [done|].
  destruct (bool_decide _).
  - etrans; [done|]. by apply copy_image_dry.
  - etrans; [done|]. by apply copy_non_image_dry.
Qed.

Lemma for_each_preserves {A} (R : relation state)
    `{!Reflexive R, !Transitive R} (l : list A) (body : A → M unit) :
  (∀ x, preserves R (body x)) → preserves R (MetaBridge.for_each l body).
Proof.
  intros Hbody. induction l as [|x l IH]; cbn [MetaBridge.for_each].
  - by apply preserves_ret.
  - apply preserves_bind; [done|apply Hbody|]. by intros _.
Qed.

(** In dry-run mode a state is only followed by dry steps. *)
Definition dry_run_step (s s' : state) : Prop :=
  is_dry_run (self s) = true → dry_step s s'.

Global Instance dry_run_step_refl : Reflexive dry_run_step.
Proof. by intros s _. Qed.
Global Instance dry_run_step_trans : Transitive dry_run_step.
Proof.
  intros s1 s2 s3 H12 H23 Hdry. specialize (H12 Hdry).
  etrans; [done|]. apply H23. destruct H12 as (_&_&_&_&->). done.
Qed.

(** C6. Started with an empty Processed-Set in dry-run mode, a run over any
    sequence of media items leaves the file system as it was, makes no call
    that writes to it, and leaves the Processed-Set empty:
    [get_total_processed] is 0 at the end. *)
Theorem dry_run_writes_nothing
    (base_path save_path : string) (fs0 : gmap string node) (now0 : Z)
    (items : list (json * string)) :
  let s0 := {| self := MediaProcessor.__init__ base_path save_path true;
               fs := fs0; now := now0; ops := [] |} in
  let s' := (MetaBridge.process_all items s0).1 in
  fs s' = fs0 ∧ ops s' = [] ∧ processed_items (self s') = ∅
  ∧ get_total_processed (self s') = 0%nat.
Proof.
  intros s0 s'.
  assert (dry_run_step s0 s') as Hstep.
  { unfold s'. destruct (MetaBridge.process_all items s0) as [s1 r] eqn:Hrun.
    revert Hrun. apply for_each_preserves; [apply _..|].
    intros [data dir] s s2 r2 Hrun Hdry.
    pose proof (process_media_item_dry data dir s Hdry) as Hd.
    by rewrite Hrun in Hd. }
  destruct (Hstep eq_refl) as (Hfs & Hops & _ & Hproc & _).
  unfold get_total_processed. rewrite Hfs, Hops, Hproc. done.
Qed.

Lemma build_metadata_fields base now0 data uri dir md :
  build_metadata base now0 data uri dir = Ok md →
  uri_path md = os_path.join base uri ∧ save_directory md = dir.
Proof.
  unfold build_metadata.
  destruct (Py.get data "description" _); [|done].
  destruct (Py.get data "creation_timestamp" _); [|done].
  destruct (_extract_taken_timestamp data); [|done].
  cbn. by intros [= <-].
Qed.

Lemma dispatch_same_config md dir : preserves same_config (dispatch md dir).
Proof.
  intros s s' r. unfold dispatch. repeat case_match.
  - by intros [= <- <-].
  - apply copy_image_same_config.
  - apply copy_non_image_same_config.
Qed.

(** A call of [process_media_item] changes neither the base path nor the
    clock. *)
Lemma process_media_item_base data dir s s' r :
  process_media_item data dir s = (s', r) →
  base_path (self s') = base_path (self s) ∧ now s' = now s.
Proof.
  rewrite process_media_item_run.
  destruct (Py.get data "uri" (JStr "")) as [[| | |uri| |]|];
    try (by intros [= <- <-]).
  destruct (negb _); [by intros [= <- <-]|].
  destruct (build_metadata _ _ _ _ _) as [md|]; [|by intros [= <- <-]].
  intros (Hb&_&_&_&_&Hn)%dispatch_same_config. done.
Qed.

(** A record whose pair is in the Processed-Set is not written again. *)
Lemma processed_pair_is_skipped data dir uri s :
  Py.get data "uri" (JStr "") = Ok (JStr uri) →
  (os_path.join (base_path (self s)) uri, dir) ∈ processed_items (self s) →
  let '(s', r) := process_media_item data dir s in
  fs s' = fs s ∧ ops s' = ops s
  ∧ processed_items (self s') = processed_items (self s)
  ∧ (∀ s0 s1, process_media_item data dir s0 = (s1, Ok ()) →
       base_path (self s0) = base_path (self s) → now s0 = now s → r = Ok ()).
Proof.
  intros Huri Hin. rewrite process_media_item_run, Huri.
  destruct (negb _) eqn:Hlocal; [done|].
  destruct (build_metadata _ _ _ _ _) as [md|e] eqn:Hmd.
  - apply build_metadata_fields in Hmd as [Hpath _].
    unfold dispatch. cbn [with_metadata self processed_items].
    rewrite Hpath, bool_decide_eq_true_2 by done. done.
  - repeat split. intros s0 s1 Hfirst Hb Hn.
    rewrite process_media_item_run, Huri, Hlocal, Hb, Hn, Hmd in Hfirst.
    by injection Hfirst.
Qed.

(** C5. When a record has been processed and its (source path, destination
    directory) pair is in the Processed-Set, processing a record with the
    same URI for the same directory again performs no file operation and
    leaves the Processed-Set, hence its size, unchanged; if it is the same
    record and the first call returned, the second returns too. *)
Theorem second_processing_is_noop
    (data1 data2 : json) (uri save_directory : string) (s s1 s2 : state)
    (r1 r2 : result ()) :
  Py.get data1 "uri" (JStr "") = Ok (JStr uri) →
  Py.get data2 "uri" (JStr "") = Ok (JStr uri) →
  process_media_item data1 save_directory s = (s1, r1) →
  (os_path.join (base_path (self s)) uri, save_directory)
    ∈ processed_items (self s1) →
  process_media_item data2 save_directory s1 = (s2, r2) →
  fs s2 = fs s1 ∧ ops s2 = ops s1
  ∧ processed_items (self s2) = processed_items (self s1)
  ∧ get_total_processed (self s2) = get_total_processed (self s1)
  ∧ (data2 = data1 → r1 = Ok () → r2 = Ok ()).
Proof.
  intros Huri1 Huri2 Hfirst Hin Hsecond.
  destruct (process_media_item_base _ _ _ _ _ Hfirst) as [Hb Hn].
  rewrite <- Hb in Hin.
  pose proof (processed_pair_is_skipped data2 save_directory uri s1 Huri2 Hin)
    as Hskip.
  rewrite Hsecond in Hskip. destruct Hskip as (Hfs & Hops & Hproc & Hret).
  unfold get_total_processed. rewrite Hproc. repeat split; try done.
  intros -> ->. by eapply Hret.
Qed.

End Resolver.

(** ** The resolved timestamp (C1, C4) *)

Section Timestamp.
Context `{Ext : Externals}.
Import MediaProcessor.


(** The fields of the dictionary are the values read from the record. *)
Lemma build_metadata_timestamps base now0 data uri dir md :
  build_metadata base now0 data uri dir = Ok md →
  Py.get data "creation_timestamp" (JInt now0) = Ok (creation_timestamp md)
  ∧ _extract_taken_timestamp data = Ok (taken_timestamp md)
  ∧ timestamp md = Py.or (taken_timestamp md) (creation_timestamp md).
Proof.
  unfold build_metadata.
  destruct (Py.get data "description" _); [|done].
  destruct (Py.get data "creation_timestamp" _); [|done].
  destruct (_extract_taken_timestamp data); [|done].
  cbn. by intros [= <-].
Qed.

(** The precedence rule as the code has it: [taken_timestamp] wins when it
    is truthy. *)
Lemma truthy_taken_timestamp_wins base now0 data uri dir md :
  build_metadata base now0 data uri dir = Ok md →
  Py.truthy (taken_timestamp md) = true →
  timestamp md = taken_timestamp md.
Proof.
  intros (_ & _ & ->)%build_metadata_timestamps Htrue.
  unfold Py.or. by rewrite Htrue.
Qed.

Lemma falsy_taken_timestamp_loses base now0 data uri dir md :
  build_metadata base now0 data uri dir = Ok md →
  Py.truthy (taken_timestamp md) = false →
  timestamp md = creation_timestamp md.
Proof.
  intros (_ & _ & ->)%build_metadata_timestamps Hfalse.
  unfold Py.or. by rewrite Hfalse.
Qed.


End Timestamp.

(** ** The fallback of the image branch (C2) *)

Section Fallback.
Context `{Ext : Externals}.
Import MediaProcessor.

(** C2 fails where the failure comes before [save_path] is assigned. When
    [_generate_filename] raises, the [except] clause of [_copy_image] raises
    in its turn, on the unbound local variable: [_copy_non_image] is not
    called and the exception reaches the caller. *)
Theorem copy_image_raises_when_filename_fails
    (s : state) (md : metadata_dict) (e : exn) :
  is_dry_run (self s) = false →
  metadata (self s) = Some md →
  _generate_filename md = Raise e →
  _copy_image s = (s, Raise UnboundLocalError).
Proof.
  intros Hdry Hmd Hname. unfold _copy_image. rewrite Hdry.
  unfold image_try_save_path, get_metadata. run. rewrite Hmd. run.
  rewrite Hname. run.
  unfold image_except, get_metadata. run. rewrite Hmd. by run.
Qed.

(** Where the failure comes after the assignment of [save_path] (loading
    the image, setting the tags, saving), the item is handed to
    [_copy_non_image], in the state the failed attempt left. *)
Lemma copy_image_falls_back (s s1 s2 : state) (save_path : string) (e : exn) :
  is_dry_run (self s) = false →
  image_try_save_path s = (s1, Ok (Some save_path)) →
  image_try_rest save_path s1 = (s2, Raise e) →
  _copy_image s = _copy_non_image s2.
Proof.
  intros Hdry Hpath Hrest. unfold _copy_image. rewrite Hdry, Hpath.
  unfold try_except. rewrite Hrest.
  unfold image_except, get_metadata. run.
  assert (metadata (self s2) = metadata (self s)) as Hmd.
  { apply image_try_save_path_same_config in Hpath as (_&_&H1&_).
    apply image_try_rest_same_config in Hrest as (_&_&H2&_). congruence. }
  assert (is_Some (metadata (self s))) as [md Hsome].
  { revert Hpath. unfold image_try_save_path, get_metadata. run.
    destruct (metadata (self s)); [by eauto|]. by run. }
  rewrite Hmd, Hsome. by run.
Qed.

End Fallback.

(** ** Two items with the same base file name (C7) *)

Section Collision.
Import MediaProcessor.


Lemma length_rstrip c s :
  (String.length (Str.rstrip c s) ≤ String.length s)%nat.
Proof.
  induction s as [|a s IH]; cbn; [lia|].
  destruct (Str.rstrip c s); [destruct (Ascii.eqb a c)|]; cbn in *; lia.
Qed.


(** The file system [fs'] is [fs] after an item was written at [p]: the file
    is there, and nothing else is new but, possibly, its directory. *)
Definition written (fs fs' : gmap string node) (p : string) : Prop :=
  p ∈ dom fs' ∧ dom fs' ⊆ dom fs ∪ {[ p; os_path.dirname p ]}.




End Collision.

(** ** The calendar *)

Section Calendar.
Import datetime.












(** [check] holds of the [n] integers from [z] on. *)
Fixpoint holds_from (check : Z → bool) (n : nat) (z : Z) : bool :=
  match n with
  | O => true
  | S n' => check z && holds_from check n' (z + 1)
  end.

Lemma holds_from_spec check n z k :
  holds_from check n z = true → z ≤ k < z + Z.of_nat n → check k = true.
Proof.
  revert z. induction n as [|n IH]; intros z; cbn [holds_from]; [lia|].
  intros [Hz Hrest]%andb_true_iff Hk.
  destruct (decide (k = z)) as [->|]; [done|].
  apply (IH (z + 1)); [done|lia].
Qed.

(** [d2] writes the two decimal digits of a number below 100. *)
Definition decimal (width : nat) (n : Z) : string :=
  let s := pretty n in
  String.concat "" (replicate (width - String.length s) "0") +:+ s.

Lemma d2_decimal_checked :
  holds_from (λ n, bool_decide (d2 n = decimal 2 n)) (Z.to_nat 100) 0 = true.
Proof. vm_cast_no_check (eq_refl true). Qed.

Lemma d2_decimal n : 0 ≤ n ≤ 99 → d2 n = decimal 2 n.
Proof.
  intros Hn.
  pose proof (holds_from_spec _ _ 0 n d2_decimal_checked ltac:(lia)) as Hc.
  by apply bool_decide_eq_true in Hc.
Qed.

End Calendar.

(** ** The base file name (C8) *)

Section Filename.
Context `{Ext : Externals}.
Import MediaProcessor datetime.

(** The extension [_generate_filename] appends: that of the last component
    of the source path. *)
Definition source_extension (md : metadata_dict) : string :=
  (os_path.splitext (os_path.split (uri_path md)).2).2.


Lemma generate_filename_run md :
  _generate_filename md =
  dt ← fromtimestamp la_timezone (timestamp md);
  Ok (strftime_file dt +:+ source_extension md).
Proof.
  unfold _generate_filename, source_extension.
  destruct (os_path.split (uri_path md)) as [h tail]. cbn [fst snd].
  by destruct (os_path.splitext tail).
Qed.

(** A timestamp that [datetime] can hold in the zone gives a file name. *)
Lemma generate_filename_total md t :
  Py.as_int (timestamp md) = Ok t →
  MIN ≤ t ≤ MAX → MIN ≤ t + la_timezone t ≤ MAX →
  _generate_filename md
  = Ok (strftime_file (of_seconds (t + la_timezone t))
          +:+ source_extension md).
Proof.
  intros Ht Hr Hl. rewrite generate_filename_run. unfold fromtimestamp.
  rewrite Ht. cbn.
  replace ((t <? MIN) || (MAX <? t)) with false
    by (symmetry; apply orb_false_iff; split; apply Z.ltb_ge; lia).
  replace ((t + la_timezone t <? MIN) || (MAX <? t + la_timezone t))
    with false
    by (symmetry; apply orb_false_iff; split; apply Z.ltb_ge; lia).
  done.
Qed.


End Filename.

(** ** The shape of the destination paths *)

Section WritePaths.
Import MediaProcessor.

Lemma pretty_N_char_is_not (k : N) c :
  (N_of_ascii c < 48 ∨ 57 < N_of_ascii c)%N →
  Ascii.eqb (pretty_N_char k) c = false.
Proof.
  intros Hc. apply Ascii.eqb_neq. intros <-. revert Hc.
  unfold pretty_N_char. repeat case_match; cbn; lia.
Qed.

Lemma pretty_N_go_lacks c (x : N) s :
  (N_of_ascii c < 48 ∨ 57 < N_of_ascii c)%N →
  lacks c s = true → lacks c (pretty_N_go x s) = true.
Proof.
  intros Hc. revert s.
  induction (N.lt_wf_0 x) as [x _ IH]. intros s Hs.
  destruct (decide (0 < x)%N) as [Hx|Hx].
  - rewrite pretty_N_go_step by done. apply IH.
    + by apply N.div_lt.
    + by rewrite lacks_cons, pretty_N_char_is_not, Hs.
  - replace x with 0%N by lia. by rewrite pretty_N_go_0.
Qed.

Lemma pretty_N_lacks c (x : N) :
  (N_of_ascii c < 48 ∨ 57 < N_of_ascii c)%N → lacks c (pretty x) = true.
Proof.
  intros Hc. unfold pretty, pretty_N. case_decide.
  - rewrite lacks_cons. replace (Ascii.eqb "0" c) with false; [done|].
    symmetry. apply Ascii.eqb_neq. intros <-. cbn in Hc. lia.
  - by apply pretty_N_go_lacks.
Qed.

Lemma length_take_le n s : (String.length (Str.take n s) ≤ n)%nat.
Proof.
  revert s. induction n as [|n IH]; intros [|a s]; cbn; try lia.
  specialize (IH s). lia.
Qed.

(** A path made by joining a non-empty name without separator is longer
    than its directory part. *)
Lemma dirname_join_shorter d name :
  lacks "/" name = true → name ≠ "" →
  (String.length (os_path.dirname (os_path.join d name))
   < String.length (os_path.join d name))%nat.
Proof.
  intros Hl Hne. rewrite join_as_prefix.
  set (pre := join_prefix d name).
  unfold os_path.dirname, os_path.split. cbn [fst].
  assert (String.length (Str.take (Z.to_nat (Str.rfind "/" (pre +:+ name) + 1))
                           (pre +:+ name))
          < String.length (pre +:+ name))%nat as Hlen.
  { eapply Nat.le_lt_trans; [apply length_take_le|].
    rewrite rfind_app, Hl, length_app_str.
    pose proof (rfind_lower_bound "/" pre).
    destruct name; [done|]. cbn [String.length]. lia. }
  case_match; [|done].
  eapply Nat.le_lt_trans; [apply length_rstrip|done].
Qed.

Lemma save_path_loop_result fs d fn fe fuel path c p :
  save_path_loop fs d fn fe fuel path c = Some p →
  p = path ∨ ∃ c', p = candidate d fn fe c'.
Proof.
  revert path c. induction fuel as [|fuel IH]; intros path c; cbn; [done|].
  destruct (os.exists_ fs path).
  - intros [->|Hc]%IH; [right; by eexists|by right].
  - intros [= <-]. by left.
Qed.

Lemma generate_save_path_dirname fs d base p :
  lacks "/" base = true → base ≠ "" →
  _generate_save_path fs d base = Some p →
  (String.length (os_path.dirname p) < String.length p)%nat.
Proof.
  intros Hl Hne. unfold _generate_save_path.
  pose proof (splitext_app base) as Hbase.
  destruct (os_path.splitext base) as [fn fe]. cbn [fst snd] in Hbase.
  intros [->|[c ->]]%save_path_loop_result.
  - by apply dirname_join_shorter.
  - unfold candidate. apply dirname_join_shorter.
    + rewrite <- Hbase, lacks_app in Hl. apply andb_true_iff in Hl as [H1 H2].
      rewrite !lacks_app, H1, H2, pretty_N_lacks by (cbn; lia). done.
    + destruct fn; [|done]. rewrite app_empty_l. done.
Qed.

End WritePaths.

(** ** What the two writer branches do *)

Section Writes.
Context `{Ext : Externals}.
Import MediaProcessor.

Lemma generated_name_lacks_sep md base :
  _generate_filename md = Ok base → lacks "/" base = true ∧ base ≠ "".
Proof.
  rewrite generate_filename_run.
  destruct (datetime.fromtimestamp _ _) as [dt|]; [|done]. cbn.
  intros [= <-]. split.
  - rewrite lacks_app, strftime_file_lacks_sep.
    unfold source_extension.
    destruct (splitext_ext (os_path.split (uri_path md)).2)
      as [->|(e & -> & _ & He)]; [done|].
    by rewrite lacks_cons, He.
  - by destruct (strftime_file_head dt) as [rest ->].
Qed.


(** A file name was generated: the timestamp is an integer [datetime] holds. *)
Lemma generate_filename_timestamp md base :
  _generate_filename md = Ok base →
  ∃ t, Py.as_int (timestamp md) = Ok t ∧ datetime.MIN ≤ t ≤ datetime.MAX.
Proof.
  rewrite generate_filename_run. unfold datetime.fromtimestamp.
  destruct (Py.as_int (timestamp md)) as [t|]; [|done]. cbn.
  destruct (_ || _) eqn:Hr; [done|]. intros _. exists t. split; [done|].
  apply orb_false_iff in Hr as [?%Z.ltb_ge ?%Z.ltb_ge]. lia.
Qed.

(** The item of [md] was copied to [p]. *)
Definition copied (s s' : state) (md : metadata_dict) (p : string) : Prop :=
  ∃ f t,
    fs s !! uri_path md = Some (File f)
    ∧ Py.as_int (timestamp md) = Ok t
    ∧ fs s' !! p = Some (File {| f_data := f_data f; f_mtime := t;
                                 f_ctime := now s |})
    ∧ fs s' !! uri_path md = Some (File f)
    ∧ written (fs s) (fs s') p
    ∧ processed_items (self s')
      = {[ (uri_path md, save_directory md) ]} ∪ processed_items (self s).

(** No file of [fs'] is new or changed. *)
Definition no_new_file (fs fs' : gmap string node) : Prop :=
  ∀ q f, fs' !! q = Some (File f) → fs !! q = Some (File f).

(** What one run of the [try] of [_copy_non_image] does. *)
Lemma non_image_try_cases s md :
  metadata (self s) = Some md →
  match non_image_try s with
  | (s', Ok _) =>
      ∃ base p,
        _generate_filename md = Ok base
        ∧ _generate_save_path (fs s) (save_directory md) base = Some p
        ∧ copied s s' md p
  | (s', Raise _) => self s' = self s ∧ no_new_file (fs s) (fs s')
  end.
Proof.
  intros Hmd. unfold non_image_try, get_metadata. run. rewrite Hmd. run.
  destruct (_generate_filename md) as [base|] eqn:Hname; run;
    [|by split; [|intros ??]].
  destruct (save_path_found (fs s) (save_directory md) base)
    as (p & Hp & Hfree).
  rewrite Hp.
  destruct (generated_name_lacks_sep _ _ Hname) as [Hl Hne].
  destruct (generate_filename_timestamp _ _ Hname) as (t & Ht & Hrange).
  pose proof (generate_save_path_dirname _ _ _ _ Hl Hne Hp) as Hdir.
  assert (os_path.dirname p ≠ p) as Hdp by (intros E; rewrite E in Hdir; lia).
  assert (fs s !! p = None) as Hnone.
  { unfold os.exists_ in Hfree. apply bool_decide_eq_false in Hfree.
    by apply eq_None_not_Some. }
  set (d := os_path.dirname p) in *.
  rewrite run_bind. unfold os.makedirs. run.
  destruct (bool_decide (d = "")); run; [by split; [|intros ??]|].
  assert (∀ fs1, fs1 = fs s ∨ (fs s !! d = None ∧ fs1 = <[d := Dir]> (fs s)) →
    match
      (shutil.copy (uri_path md) p ≫= λ _,
       os.utime p (timestamp md) ≫= λ _,
       add_processed (uri_path md, save_directory md))
        {| self := self s; fs := fs1; now := now s;
           ops := ops s ++ [OpMakedirs d] |}
    with
    | (s', Ok _) => copied s s' md p
    | (s', Raise _) => self s' = self s ∧ no_new_file (fs s) (fs s')
    end) as Hrest.
  { intros fs1 Hfs1.
    assert (fs1 !! p = None) as Hp1.
    { destruct Hfs1 as [->|[_ ->]]; [done|]. by rewrite lookup_insert_ne. }
    assert (dom fs1 ⊆ dom (fs s) ∪ {[ p; d ]}) as Hdom.
    { destruct Hfs1 as [->|[_ ->]]; [set_solver|].
      rewrite dom_insert. set_solver. }
    assert (no_new_file (fs s) fs1) as Hold.
    { destruct Hfs1 as [->|[Hd ->]]; intros q f; [done|].
      destruct (decide (q = d)) as [->|];
        [by rewrite lookup_insert_eq|by rewrite lookup_insert_ne]. }
    unfold shutil.copy. run. cbn [fs self now ops].
    destruct (fs1 !! uri_path md) as [[|f]|] eqn:Hsrc; run;
      [by split| |by split].
    unfold os.isdir. cbn [fs self now ops]. repeat (rewrite Hp1; cbv iota).
    destruct (bool_decide (p = uri_path md)) eqn:Hps; run; [by split|].
    apply bool_decide_eq_false in Hps.
    rewrite run_bind. unfold set_fs at 1. cbn [fs self now ops].
    unfold os.utime. run. rewrite Ht. run.
    cbn [fs self now ops].
    replace ((t <? - 2 ^ 63) || (2 ^ 63 <=? t)) with false.
    2:{ symmetry. apply orb_false_iff. unfold datetime.MIN, datetime.MAX in *.
        split; [apply Z.ltb_ge|apply Z.leb_gt]; lia. }
    rewrite lookup_insert_eq.
    rewrite run_bind. unfold set_fs at 1. cbn [fs self now ops].
    unfold add_processed, set_self. run. cbn [fs self now ops processed_items].
    exists f, t. cbn [f_data fs self processed_items]. rewrite insert_insert_eq.
    split; [by apply Hold|]. split; [done|].
    split; [by rewrite lookup_insert_eq|].
    split; [by rewrite lookup_insert_ne|].
    split; [|done]. split; rewrite dom_insert; set_solver. }
  destruct (fs s !! d) as [[|f]|] eqn:Hd; run.
  - unfold set_fs at 1. cbv beta iota.
    specialize (Hrest (fs s) (or_introl eq_refl)).
    destruct ((shutil.copy _ _ ≫= _) _) as [s' [[]|e]]; [|done].
    by exists base, p.
  - by split; [|intros ??].
  - unfold set_fs at 1. cbv beta iota.
    specialize (Hrest (<[d := Dir]> (fs s)) (or_intror (conj eq_refl eq_refl))).
    destruct ((shutil.copy _ _ ≫= _) _) as [s' [[]|e]]; [|done].
    by exists base, p.
Qed.

(** [_copy_non_image] catches whatever its [try] raises. *)
Lemma copy_non_image_cases s md :
  is_dry_run (self s) = false →
  metadata (self s) = Some md →
  ∃ s', _copy_non_image s = (s', Ok ())
        ∧ ((∃ base p, _generate_filename md = Ok base
                      ∧ _generate_save_path (fs s) (save_directory md) base
                        = Some p
                      ∧ copied s s' md p)
           ∨ (self s' = self s ∧ no_new_file (fs s) (fs s'))).
Proof.
  intros Hdry Hmd. unfold _copy_non_image. run. rewrite Hdry.
  unfold try_except.
  pose proof (non_image_try_cases s md Hmd) as Hc.
  destruct (non_image_try s) as [s' [[]|e]].
  - exists s'. split; [done|]. by left.
  - destruct Hc as [Hself Hfs]. exists s'.
    unfold get_metadata. run. rewrite Hself, Hmd. run.
    split; [done|]. by right.
Qed.

(** [exif_dict["Exif"][DateTimeOriginal]] and [exif_dict["0th"][ImageDescription]] *)
Definition date_time_original (e : exif_dict) : option json :=
  ifds e !! "Exif" ≫= (.!! ExifIFD.DateTimeOriginal).
Definition image_description (e : exif_dict) : option json :=
  ifds e !! "0th" ≫= (.!! ImageIFD.ImageDescription).

(** The picture of [md] was saved at [p] with its tags. *)
Definition saved (s s' : state) (md : metadata_dict) (p : string) : Prop :=
  ∃ f im e bytes format data t,
    fs s !! uri_path md = Some (File f)
    ∧ Image_open (f_data f) = Ok im
    ∧ Py.as_int (timestamp md) = Ok t
    ∧ date_time_original e
      = Some (JStr (datetime.strftime_exif (datetime.of_seconds t)))
    ∧ (if Py.truthy (description md)
       then image_description e = Some (description md) else True)
    ∧ piexif_dump e = Ok bytes
    ∧ Image_save im format bytes = Ok data
    ∧ fs s' !! p = Some (File {| f_data := data; f_mtime := t;
                                 f_ctime := now s |})
    ∧ ops s' = ops s ++ [OpMakedirs (os_path.dirname p);
                         OpImageSave p format e; OpUtime p t]
    ∧ processed_items (self s')
      = {[ (uri_path md, save_directory md) ]} ∪ processed_items (self s).

Lemma exif_set_lookup ifd tag v e e' :
  ExifImageHandler.exif_set ifd tag v e = Ok e' →
  (ifds e' !! ifd ≫= (.!! tag)) = Some v
  ∧ ∀ ifd', ifd' ≠ ifd → ifds e' !! ifd' = ifds e !! ifd'.
Proof.
  unfold ExifImageHandler.exif_set.
  destruct (ifds e !! ifd) as [d|]; [|done]. intros [= <-]. cbn. split.
  - rewrite lookup_insert_eq. cbn. by rewrite lookup_insert_eq.
  - intros ifd' Hne. by rewrite lookup_insert_ne.
Qed.


Lemma no_new_file_refl fs0 : no_new_file fs0 fs0.
Proof. by intros ??. Qed.

Lemma no_new_file_mkdir (fs0 : gmap string node) d :
  fs0 !! d = None → no_new_file fs0 (<[d := Dir]> fs0).
Proof.
  intros Hd q f. destruct (decide (q = d)) as [->|];
    [by rewrite lookup_insert_eq|by rewrite lookup_insert_ne].
Qed.

(** [ExifImageHandler(photo_uri)] reads the file and changes nothing. *)
Lemma handler_init_spec uri s :
  match ExifImageHandler.__init__ uri s with
  | (s', Ok h) =>
      s' = s
      ∧ ExifImageHandler.creation_timestamp h = None
      ∧ ∃ f, fs s !! uri = Some (File f)
             ∧ Image_open (f_data f) = Ok (ExifImageHandler.img h)
  | (s', Raise _) => s' = s
  end.
Proof.
  unfold ExifImageHandler.__init__, ExifImageHandler._load_image_exif,
    ExifImageHandler.open_image. run.
  destruct (fs s !! uri) as [[|f]|] eqn:Hsrc; run; [done| |done].
  destruct (Image_open (f_data f)) as [im|] eqn:Hopen; run; [|done].
  destruct (Image_exif im) as [b|]; [destruct (bool_decide (b = ""))|]; run;
    try (split; [done|]; split; [done|]; by exists f).
  destruct (piexif_load b) as [e0|]; run; [|done].
  split; [done|]. split; [done|]. by exists f.
Qed.

Lemma set_creation_timestamp_spec h ts h' :
  ExifImageHandler.set_creation_timestamp h ts = Ok h' →
  ∃ t, Py.as_int ts = Ok t ∧ datetime.MIN ≤ t ≤ datetime.MAX
       ∧ date_time_original (ExifImageHandler.exif h')
         = Some (JStr (datetime.strftime_exif (datetime.of_seconds t)))
       ∧ ExifImageHandler.creation_timestamp h' = Some ts
       ∧ ExifImageHandler.img h' = ExifImageHandler.img h
       ∧ ∀ ifd, ifd ≠ "Exif" →
           ifds (ExifImageHandler.exif h') !! ifd
           = ifds (ExifImageHandler.exif h) !! ifd.
Proof.
  unfold ExifImageHandler.set_creation_timestamp, datetime.fromtimestamp.
  destruct (Py.as_int ts) as [t|]; [|done]. cbn [mbind result_bind].
  destruct (_ || _) eqn:Hr; [done|]. rewrite Z.add_0_r, Hr.
  cbn [mbind result_bind].
  destruct (ExifImageHandler.exif_set _ _ _ _) as [e1|] eqn:He1; [|done].
  cbn [mbind result_bind]. intros [= <-].
  apply exif_set_lookup in He1 as [Hdto He1].
  apply orb_false_iff in Hr as [Hr1%Z.ltb_ge Hr2%Z.ltb_ge].
  exists t. by repeat split.
Qed.

Lemma set_description_spec h d h' :
  ExifImageHandler.set_description h d = Ok h' →
  ExifImageHandler.img h' = ExifImageHandler.img h
  ∧ ExifImageHandler.creation_timestamp h'
    = ExifImageHandler.creation_timestamp h
  ∧ date_time_original (ExifImageHandler.exif h')
    = date_time_original (ExifImageHandler.exif h)
  ∧ (if Py.truthy d
     then image_description (ExifImageHandler.exif h') = Some d
     else h' = h).
Proof.
  unfold ExifImageHandler.set_description.
  destruct (Py.truthy d); [|by intros [= <-]].
  destruct (ExifImageHandler.exif_set _ _ _ _) as [e1|] eqn:He1; [|done].
  cbn [mbind result_bind]. intros [= <-].
  apply exif_set_lookup in He1 as [Hd He1]. cbn.
  repeat split; [|done]. unfold date_time_original. by rewrite He1.
Qed.

(** [save] writes the picture with the tags of the handler and gives the
    file the handler's timestamp. *)
Lemma handler_save_spec h p s ts t :
  ExifImageHandler.creation_timestamp h = Some ts →
  Py.as_int ts = Ok t → datetime.MIN ≤ t ≤ datetime.MAX →
  match ExifImageHandler.save h p s with
  | (s', Ok _) =>
      ∃ bytes format data,
        piexif_dump (ExifImageHandler.exif h) = Ok bytes
        ∧ Image_save (ExifImageHandler.img h) format bytes = Ok data
        ∧ fs s' !! p = Some (File {| f_data := data; f_mtime := t;
                                     f_ctime := now s |})
        ∧ (∀ q, q ≠ p → q ≠ os_path.dirname p → fs s' !! q = fs s !! q)
        ∧ ops s' = ops s ++ [OpMakedirs (os_path.dirname p);
                             OpImageSave p format (ExifImageHandler.exif h);
                             OpUtime p t]
        ∧ self s' = self s ∧ now s' = now s
  | (s', Raise _) => self s' = self s ∧ no_new_file (fs s) (fs s')
  end.
Proof.
  intros Hts Ht Hrange. unfold ExifImageHandler.save. run.
  destruct (piexif_dump _) as [bytes|] eqn:Hdump; run;
    [|split; [done|apply no_new_file_refl]].
  destruct (os_path.splitext p) as [? file_ext].
  set (format := match Image_format _ with
                 | Some f0 => if bool_decide (f0 = "") then _ else f0
                 | None => _ end).
  assert (∀ s1, self s1 = self s → now s1 = now s →
            no_new_file (fs s) (fs s1) →
            (∀ q, q ≠ p → q ≠ os_path.dirname p → fs s1 !! q = fs s !! q) →
            ops s1 = ops s ++ [OpMakedirs (os_path.dirname p)] →
    match
      (ExifImageHandler.img_save h p format bytes ≫= λ _,
       ExifImageHandler.update_file_timestamps h p) s1
    with
    | (s', Ok _) =>
      ∃ bytes0 format0 data0,
        Ok bytes = Ok bytes0
        ∧ Image_save (ExifImageHandler.img h) format0 bytes0 = Ok data0
        ∧ fs s' !! p = Some (File {| f_data := data0; f_mtime := t;
                                     f_ctime := now s |})
        ∧ (∀ q, q ≠ p → q ≠ os_path.dirname p → fs s' !! q = fs s !! q)
        ∧ ops s' = ops s ++ [OpMakedirs (os_path.dirname p);
                             OpImageSave p format0 (ExifImageHandler.exif h);
                             OpUtime p t]
        ∧ self s' = self s ∧ now s' = now s
    | (s', Raise _) => self s' = self s ∧ no_new_file (fs s) (fs s')
    end) as Hsave.
  { intros s1 Hself Hnow Hold Hframe Hops.
    unfold ExifImageHandler.img_save. run.
    destruct (Image_save _ format bytes) as [data|] eqn:Hsave; run; [|done].
    assert (
      let s2 := {| self := self s1;
                   fs := <[p := File {| f_data := data; f_mtime := now s1;
                                        f_ctime := now s1 |}]> (fs s1);
                   now := now s1;
                   ops := ops s1 ++ [OpImageSave p format
                                       (ExifImageHandler.exif h)] |} in
      match ExifImageHandler.update_file_timestamps h p s2 with
      | (s', Ok _) =>
          ∃ bytes0 format0 data0,
            Ok bytes = Ok bytes0
            ∧ Image_save (ExifImageHandler.img h) format0 bytes0 = Ok data0
            ∧ fs s' !! p = Some (File {| f_data := data0; f_mtime := t;
                                         f_ctime := now s |})
            ∧ (∀ q, q ≠ p → q ≠ os_path.dirname p → fs s' !! q = fs s !! q)
            ∧ ops s' = ops s ++ [OpMakedirs (os_path.dirname p);
                                 OpImageSave p format0 (ExifImageHandler.exif h);
                                 OpUtime p t]
            ∧ self s' = self s ∧ now s' = now s
      | (s', Raise _) => self s' = self s ∧ no_new_file (fs s) (fs s')
      end) as Hput.
    { cbv zeta. unfold ExifImageHandler.update_file_timestamps. run.
      rewrite Hts. cbn [default from_option id].
      unfold os.utime. run. rewrite Ht. run. cbn [fs self now ops].
      replace ((t <? - 2 ^ 63) || (2 ^ 63 <=? t)) with false.
      2:{ symmetry. apply orb_false_iff.
          unfold datetime.MIN, datetime.MAX in *.
          split; [apply Z.ltb_ge|apply Z.leb_gt]; lia. }
      rewrite lookup_insert_eq. unfold set_fs. cbn [fs self now ops].
      exists bytes, format, data. rewrite insert_insert_eq, lookup_insert_eq.
      cbn [f_data]. rewrite Hops, <- !app_assoc.
      split; [done|]. split; [done|]. split; [by rewrite Hnow|].
      split; [|done].
      intros q Hq1 Hq2. rewrite lookup_insert_ne by done. by apply Hframe. }
    destruct (fs s1 !! p) as [[|f1]|]; run; [by split|..];
      rewrite run_bind; unfold set_fs at 1; cbv beta iota; apply Hput. }
  rewrite run_bind. unfold os.makedirs. run.
  destruct (bool_decide (os_path.dirname p = "")); run;
    [split; [done|apply no_new_file_refl]|].
  destruct (fs s !! os_path.dirname p) as [[|f1]|] eqn:Hd; run.
  - unfold set_fs at 1. cbv beta iota.
    apply Hsave; try done. apply no_new_file_refl.
  - split; [done|apply no_new_file_refl].
  - unfold set_fs at 1. cbv beta iota.
    apply Hsave; try done.
    + by apply no_new_file_mkdir.
    + intros q _ Hq. cbn [fs]. by rewrite lookup_insert_ne.
Qed.

(** What the [try] of [_copy_image] does once [save_path] is known. *)
Lemma image_try_rest_cases s md p :
  metadata (self s) = Some md →
  match image_try_rest p s with
  | (s', Ok _) => saved s s' md p
  | (s', Raise _) => self s' = self s ∧ no_new_file (fs s) (fs s')
  end.
Proof.
  intros Hmd. unfold image_try_rest, get_metadata. run. rewrite Hmd. run.
  rewrite run_bind.
  pose proof (handler_init_spec (uri_path md) s) as Hinit.
  destruct (ExifImageHandler.__init__ (uri_path md) s) as [s1 [h0|e]];
    [|subst s1; split; [done|apply no_new_file_refl]].
  destruct Hinit as (-> & Hnone & f & Hsrc & Hopen).
  destruct (ExifImageHandler.set_creation_timestamp h0 (timestamp md))
    as [h1|] eqn:H1; run; [|split; [done|apply no_new_file_refl]].
  apply set_creation_timestamp_spec in H1
    as (t & Ht & Hrange & Hdto & Hts & Himg & _).
  destruct (ExifImageHandler.set_description h1 (description md))
    as [h2|] eqn:H2; run; [|split; [done|apply no_new_file_refl]].
  apply set_description_spec in H2 as (Himg2 & Hts2 & Hdto2 & Hdesc).
  rewrite run_bind.
  pose proof (handler_save_spec h2 p s (timestamp md) t
                ltac:(congruence) Ht Hrange) as Hsave.
  destruct (ExifImageHandler.save h2 p s) as [s2 [[]|e]]; [|done].
  destruct Hsave as (bytes & format & data & Hdump & Hsv & Hp & _ & Hops
                     & Hself & Hnow).
  unfold add_processed, set_self. run. cbn [fs self now ops processed_items].
  exists f, (ExifImageHandler.img h2), (ExifImageHandler.exif h2),
    bytes, format, data, t.
  rewrite Hself. repeat split; try done.
  - congruence.
  - congruence.
  - destruct (Py.truthy (description md)); [done|done].
Qed.

(** Once the file name is generated, [_copy_image] does not raise: it saves
    the picture, or it falls back on [_copy_non_image]. *)
Lemma copy_image_cases s md base :
  is_dry_run (self s) = false →
  metadata (self s) = Some md →
  _generate_filename md = Ok base →
  ∃ p s', _generate_save_path (fs s) (save_directory md) base = Some p
    ∧ _copy_image s = (s', Ok ())
    ∧ (saved s s' md p
       ∨ ∃ s1, self s1 = self s ∧ no_new_file (fs s) (fs s1)
               ∧ _copy_non_image s1 = (s', Ok ())).
Proof.
  intros Hdry Hmd Hname.
  destruct (save_path_found (fs s) (save_directory md) base)
    as (p & Hp & _).
  exists p. unfold _copy_image. rewrite Hdry.
  unfold image_try_save_path, get_metadata. run. rewrite Hmd. run.
  rewrite Hname. run. rewrite Hp.
  unfold try_except.
  pose proof (image_try_rest_cases s md p Hmd) as Hrest.
  destruct (image_try_rest p s) as [s1 [[]|e]].
  - exists s1. split; [done|]. split; [done|]. by left.
  - destruct Hrest as [Hself Hfs].
    unfold image_except, get_metadata. run. rewrite Hself, Hmd. run.
    destruct (copy_non_image_cases s1 md) as (s' & Hrun & _);
      [by rewrite Hself|by rewrite Hself|].
    exists s'. split; [done|]. split; [done|]. right. by exists s1.
Qed.

End Writes.

(** ** More on the resolver and the two branches *)

Section MoreResolver.
Context `{Ext : Externals}.
Import MediaProcessor.

(** X1. A record whose [uri] does not start with the export-root marker
    [your_facebook_activity] is skipped: the call returns normally and the
    state is as it was. *)
Theorem foreign_uri_is_skipped
    (data : json) (uri save_directory : string) (s : state) :
  Py.get data "uri" (JStr "") = Ok (JStr uri) →
  Str.startswith uri "your_facebook_activity" = false →
  process_media_item data save_directory s = (s, Ok ()).
Proof. intros Huri Hno. by rewrite process_media_item_run, Huri, Hno. Qed.

(** X2. A record that is no dictionary, or whose [uri] is not a string,
    makes [process_media_item] raise [AttributeError] before it touches
    anything. *)
Theorem uri_that_is_no_string_raises
    (data : json) (save_directory : string) (s : state) :
  (∀ uri, Py.get data "uri" (JStr "") ≠ Ok (JStr uri)) →
  process_media_item data save_directory s = (s, Raise AttributeError).
Proof.
  intros Hno. rewrite process_media_item_run.
  destruct (Py.get data "uri" (JStr "")) as [v|e] eqn:Hget.
  - destruct v; try done. by destruct (Hno s0).
  - unfold Py.get in Hget. destruct data; by inversion Hget.
Qed.

(** X3. Where no taken timestamp is found, the resolved timestamp is the
    record's [creation_timestamp], and the current time when the record has
    none. *)
Theorem creation_timestamp_resolves_without_taken
    (base : string) (now0 : Z) (kv : list (string * json))
    (uri dir : string) (md : metadata_dict) :
  _extract_taken_timestamp (JDict kv) = Ok JNull →
  build_metadata base now0 (JDict kv) uri dir = Ok md →
  timestamp md = default (JInt now0) (Py.assoc "creation_timestamp" kv).
Proof.
  intros Htaken (Hc & Ht & ->)%build_metadata_timestamps.
  rewrite Htaken in Ht. injection Ht as <-.
  cbn in Hc. injection Hc as <-. done.
Qed.

(** X4. A record with a [media_metadata] that is not a dictionary (a
    [null], a list) is not tolerated: [_extract_taken_timestamp] raises
    [AttributeError], and so does [process_media_item], leaving the state as
    it was. *)
Theorem present_but_malformed_media_metadata_raises
    (kv : list (string * json)) (uri save_directory : string) (v : json)
    (s : state) :
  Py.assoc "uri" kv = Some (JStr uri) →
  Str.startswith uri "your_facebook_activity" = true →
  Py.assoc "media_metadata" kv = Some v →
  (∀ d, v ≠ JDict d) →
  _extract_taken_timestamp (JDict kv) = Raise AttributeError
  ∧ process_media_item (JDict kv) save_directory s = (s, Raise AttributeError).
Proof.
  intros Huri Hlocal Hmm Hv.
  assert (_extract_taken_timestamp (JDict kv) = Raise AttributeError) as Hx.
  { assert (Py.get (JDict kv) "media_metadata" (JDict []) = Ok v) as Hget
      by (unfold Py.get; by rewrite Hmm).
    unfold _extract_taken_timestamp. rewrite Hget. cbn [mbind result_bind].
    destruct v; try done. by destruct (Hv kv0). }
  split; [done|].
  assert (Py.get (JDict kv) "uri" (JStr "") = Ok (JStr uri)) as Hget
    by (unfold Py.get; by rewrite Huri).
  rewrite process_media_item_run, Hget, Hlocal. cbn [negb].
  unfold build_metadata. cbn [Py.get mbind result_bind].
  by rewrite Hx.
Qed.


(** An [exif_data] entry that is a dictionary without the key. *)
Definition lacks_taken (x : json) : Prop :=
  ∃ kv, x = JDict kv ∧ Py.assoc "taken_timestamp" kv = None.

Lemma first_taken_skips l1 rest :
  Forall lacks_taken l1 → first_taken (l1 ++ rest) = first_taken rest.
Proof.
  induction 1 as [|x l1 (kv & -> & Hkv) _ IH]; [done|].
  cbn [app first_taken Py.contains mbind result_bind].
  rewrite Hkv. rewrite bool_decide_eq_false_2 by (by intros [??]). done.
Qed.

(** X5. [_extract_taken_timestamp] returns [None] for a record without
    [media_metadata], without [photo_metadata] in it, or without [exif_data]
    in that. *)
Theorem extract_taken_timestamp_tolerates_missing_keys
    (kv : list (string * json)) :
  Py.assoc "media_metadata" kv = None
  ∨ (∃ mm, Py.assoc "media_metadata" kv = Some (JDict mm)
           ∧ (Py.assoc "photo_metadata" mm = None
              ∨ ∃ pm, Py.assoc "photo_metadata" mm = Some (JDict pm)
                      ∧ Py.assoc "exif_data" pm = None)) →
  _extract_taken_timestamp (JDict kv) = Ok JNull.
Proof.
  unfold _extract_taken_timestamp.
  intros [Hmm|(mm & Hmm & [Hpm|(pm & Hpm & Hex)])];
    cbn [Py.get mbind result_bind]; rewrite Hmm; cbn; [done|..];
    rewrite Hpm; cbn; [done|]. by rewrite Hex.
Qed.

(** X6. The taken timestamp is the one of the first [exif_data] entry that
    has the key, whatever the later entries hold. *)
Theorem extract_taken_timestamp_takes_first_entry
    (data mm pm : json) (l1 l2 : list json) (d : list (string * json))
    (v : json) :
  Py.get data "media_metadata" (JDict []) = Ok mm →
  Py.get mm "photo_metadata" (JDict []) = Ok pm →
  Py.get pm "exif_data" (JList []) = Ok (JList (l1 ++ JDict d :: l2)) →
  Forall lacks_taken l1 →
  Py.assoc "taken_timestamp" d = Some v →
  _extract_taken_timestamp data = Ok v.
Proof.
  intros Hmm Hpm Hex Hl1 Hd. unfold _extract_taken_timestamp.
  rewrite Hmm. cbn [mbind result_bind]. rewrite Hpm. cbn [mbind result_bind].
  rewrite Hex. cbn [mbind result_bind Py.iter].
  rewrite first_taken_skips by done.
  cbn [first_taken Py.contains mbind result_bind Py.getitem].
  rewrite Hd. by rewrite bool_decide_eq_true_2 by eauto.
Qed.

(** X7. When no [exif_data] entry has the key, the result is [None]. *)
Theorem extract_taken_timestamp_none_without_entry
    (data mm pm : json) (l : list json) :
  Py.get data "media_metadata" (JDict []) = Ok mm →
  Py.get mm "photo_metadata" (JDict []) = Ok pm →
  Py.get pm "exif_data" (JList []) = Ok (JList l) →
  Forall lacks_taken l →
  _extract_taken_timestamp data = Ok JNull.
Proof.
  intros Hmm Hpm Hex Hl. unfold _extract_taken_timestamp.
  rewrite Hmm. cbn [mbind result_bind]. rewrite Hpm. cbn [mbind result_bind].
  rewrite Hex. cbn [mbind result_bind Py.iter].
  rewrite <- (app_nil_r l). by rewrite first_taken_skips.
Qed.

(** In either mode [_copy_non_image] returns normally once the metadata is
    there. *)
Lemma copy_non_image_returns s md :
  metadata (self s) = Some md → (_copy_non_image s).2 = Ok ().
Proof.
  intros Hmd. destruct (is_dry_run (self s)) eqn:Hdry.
  - unfold _copy_non_image. run. rewrite Hdry. unfold get_metadata. run.
    by rewrite Hmd.
  - destruct (copy_non_image_cases s md Hdry Hmd) as (s' & -> & _). done.
Qed.

(** The Processed-Set after a branch: as before, or with the pair of the
    item added. *)
Definition adds_at_most (pair : string * string) (s s' : state) : Prop :=
  processed_items (self s') = processed_items (self s)
  ∨ processed_items (self s') = {[ pair ]} ∪ processed_items (self s).

Lemma copy_non_image_adds_at_most s md :
  metadata (self s) = Some md →
  adds_at_most (uri_path md, save_directory md) s (_copy_non_image s).1.
Proof.
  intros Hmd. destruct (is_dry_run (self s)) eqn:Hdry.
  - left. by destruct (copy_non_image_dry s Hdry) as (_&_&_&->&_).
  - destruct (copy_non_image_cases s md Hdry Hmd)
      as (s' & -> & [(base & p & _ & _ & Hc)|[Hself _]]); cbn [fst].
    + right. by destruct Hc as (f & t & _ & _ & _ & _ & _ & ->).
    + left. by rewrite Hself.
Qed.

Lemma copy_image_adds_at_most s md :
  metadata (self s) = Some md →
  adds_at_most (uri_path md, save_directory md) s (_copy_image s).1.
Proof.
  intros Hmd. destruct (is_dry_run (self s)) eqn:Hdry.
  { left. by destruct (copy_image_dry s Hdry) as (_&_&_&->&_). }
  destruct (_generate_filename md) as [base|e] eqn:Hname.
  - destruct (copy_image_cases s md base Hdry Hmd Hname)
      as (p & s' & _ & -> & [Hsaved|(s1 & Hself & _ & Hrun)]); cbn [fst].
    + right. by destruct Hsaved as (?&?&?&?&?&?&?&_&_&_&_&_&_&_&_&_&->).
    + pose proof (copy_non_image_adds_at_most s1 md ltac:(by rewrite Hself))
        as Hadd.
      rewrite Hrun in Hadd. unfold adds_at_most in *. by rewrite <- Hself.
  - assert (_copy_image s = (s, Raise UnboundLocalError)) as ->; [|by left].
    unfold _copy_image. rewrite Hdry.
    unfold image_try_save_path, get_metadata. run. rewrite Hmd. run.
    rewrite Hname. run.
    unfold image_except, get_metadata. run. rewrite Hmd. by run.
Qed.

(** X8. One call of [process_media_item] adds at most the pair of its own
    item to the Processed-Set and removes nothing: the count of processed
    items grows by 0 or 1. *)
Theorem processed_set_grows_by_at_most_the_item
    (data : json) (save_directory : string) (s : state) :
  let s' := (process_media_item data save_directory s).1 in
  (processed_items (self s') = processed_items (self s)
   ∨ ∃ uri, Py.get data "uri" (JStr "") = Ok (JStr uri)
            ∧ processed_items (self s')
              = {[ (os_path.join (base_path (self s)) uri, save_directory) ]}
                ∪ processed_items (self s))
  ∧ (get_total_processed (self s) ≤ get_total_processed (self s')
     ≤ S (get_total_processed (self s)))%nat.
Proof.
  intros s'.
  assert (processed_items (self s') = processed_items (self s)
          ∨ ∃ uri, Py.get data "uri" (JStr "") = Ok (JStr uri)
                   ∧ processed_items (self s')
                     = {[ (os_path.join (base_path (self s)) uri,
                           save_directory) ]}
                       ∪ processed_items (self s)) as Hcases.
  { unfold s'. rewrite process_media_item_run.
    destruct (Py.get data "uri" (JStr "")) as [[| | |uri| |]|]; try by left.
    destruct (negb _); [by left|].
    destruct (build_metadata _ _ _ _ _) as [md|] eqn:Hmd; [|by left].
    apply build_metadata_fields in Hmd as [Hpath Hdir].
    assert (adds_at_most (uri_path md, save_directory) (with_metadata md s)
              (dispatch md save_directory (with_metadata md s)).1) as Hadd.
    { unfold dispatch. repeat case_match; [by left|..]; rewrite <- Hdir.
      - by apply copy_image_adds_at_most.
      - by apply copy_non_image_adds_at_most. }
    destruct Hadd as [Hadd|Hadd]; [by left|right].
    exists uri. split; [done|]. by rewrite Hadd, Hpath. }
  split; [done|]. unfold get_total_processed.
  destruct Hcases as [->|(uri & _ & ->)]; [lia|].
  split.
  - apply subseteq_size. set_solver.
  - rewrite size_union_alt, size_singleton.
    pose proof (subseteq_size
      (processed_items (self s) ∖ {[(os_path.join (base_path (self s)) uri,
                                     save_directory)]})
      (processed_items (self s)) ltac:(set_solver)).
    lia.
Qed.

(** X9. [_copy_non_image] never raises: whatever fails in its [try] is
    logged and swallowed. *)
Theorem copy_non_image_never_raises (s : state) (md : metadata_dict) :
  metadata (self s) = Some md →
  ∃ s', _copy_non_image s = (s', Ok ()).
Proof.
  intros Hmd. pose proof (copy_non_image_returns s md Hmd) as Hr.
  destruct (_copy_non_image s) as [s' r]. cbn in Hr. subst r. by exists s'.
Qed.


(** X11. An item whose source file is missing is logged, not counted: the
    Processed-Set is unchanged and no file is written. *)
Theorem missing_source_is_not_counted (s : state) (md : metadata_dict) :
  is_dry_run (self s) = false →
  metadata (self s) = Some md →
  fs s !! uri_path md = None →
  ∃ s', _copy_non_image s = (s', Ok ())
        ∧ self s' = self s
        ∧ ∀ q f, fs s' !! q = Some (File f) → fs s !! q = Some (File f).
Proof.
  intros Hdry Hmd Hsrc.
  destruct (copy_non_image_cases s md Hdry Hmd)
    as (s' & Hrun & [(base & p & _ & _ & Hc)|[Hself Hfs]]).
  - destruct Hc as (f & t & Hsrc' & _). congruence.
  - by exists s'.
Qed.

(** X12. A source with the extension of a picture that PIL cannot open (or
    that is missing) is handled by the image branch exactly as the
    non-image branch handles it. *)
Theorem copy_image_of_unreadable_picture_is_raw_copy
    (s : state) (md : metadata_dict) (base : string) :
  is_dry_run (self s) = false →
  metadata (self s) = Some md →
  _generate_filename md = Ok base →
  (∀ f, fs s !! uri_path md = Some (File f) →
        ∃ e, Image_open (f_data f) = Raise e) →
  _copy_image s = _copy_non_image s.
Proof.
  intros Hdry Hmd Hname Hbad.
  destruct (save_path_found (fs s) (save_directory md) base)
    as (p & Hp & _).
  assert (image_try_save_path s = (s, Ok (Some p))) as Hpath.
  { unfold image_try_save_path, get_metadata. run. rewrite Hmd. run.
    rewrite Hname. run. by rewrite Hp. }
  assert (∃ e, image_try_rest p s = (s, Raise e)) as [e Hrest].
  { unfold image_try_rest, get_metadata. run. rewrite Hmd. run.
    rewrite run_bind.
    pose proof (handler_init_spec (uri_path md) s) as Hinit.
    destruct (ExifImageHandler.__init__ (uri_path md) s) as [s1 [h0|e]].
    - destruct Hinit as (_ & _ & f & Hsrc & Hopen).
      destruct (Hbad f Hsrc) as [e He]. congruence.
    - subst s1. by exists e. }
  by eapply copy_image_falls_back.
Qed.

(** X13. Once the file name is generated, [_copy_image] does not raise.
    Either the picture is saved at the generated path with
    [DateTimeOriginal] set to the resolved timestamp in UTC, the description
    in [ImageDescription] when there is one, the file's modification time
    set, and the item recorded; or nothing was written and the item is
    handed to [_copy_non_image]. *)
Theorem copy_image_saves_or_falls_back
    (s : state) (md : metadata_dict) (base : string) :
  is_dry_run (self s) = false →
  metadata (self s) = Some md →
  _generate_filename md = Ok base →
  ∃ p s', _generate_save_path (fs s) (save_directory md) base = Some p
    ∧ _copy_image s = (s', Ok ())
    ∧ ((∃ e format t f,
          OpImageSave p format e ∈ ops s'
          ∧ Py.as_int (timestamp md) = Ok t
          ∧ date_time_original e
            = Some (JStr (datetime.strftime_exif (datetime.of_seconds t)))
          ∧ (Py.truthy (description md) = true →
             image_description e = Some (description md))
          ∧ fs s' !! p = Some (File f) ∧ f_mtime f = t
          ∧ (uri_path md, save_directory md) ∈ processed_items (self s'))
       ∨ ∃ s1, self s1 = self s
               ∧ (∀ q f, fs s1 !! q = Some (File f) → fs s !! q = Some (File f))
               ∧ _copy_non_image s1 = (s', Ok ())).
Proof.
  intros Hdry Hmd Hname.
  destruct (copy_image_cases s md base Hdry Hmd Hname)
    as (p & s' & Hp & Hrun & [Hsaved|Hfall]).
  - exists p, s'. split; [done|]. split; [done|]. left.
    destruct Hsaved as (f & im & e & bytes & format & data & t & _ & _ & Ht
                        & Hdto & Hdesc & _ & _ & Hfile & Hops & Hproc).
    exists e, format, t, {| f_data := data; f_mtime := t; f_ctime := now s |}.
    split; [rewrite Hops; set_solver|]. split; [done|]. split; [done|].
    split; [by intros Htrue; rewrite Htrue in Hdesc|].
    split; [done|]. split; [done|]. rewrite Hproc. set_solver.
  - exists p, s'. split; [done|]. split; [done|]. by right.
Qed.

Lemma save_path_loop_first_free fs d fn fe fuel path c p :
  save_path_loop fs d fn fe fuel path c = Some p →
  (p = path ∧ os.exists_ fs path = false)
  ∨ (os.exists_ fs path = true
     ∧ ∃ c', (c ≤ c')%N ∧ p = candidate d fn fe c'
             ∧ os.exists_ fs p = false
             ∧ ∀ k, (c ≤ k < c')%N → os.exists_ fs (candidate d fn fe k) = true).
Proof.
  revert path c. induction fuel as [|fuel IH]; intros path c; cbn; [done|].
  destruct (os.exists_ fs path) eqn:Hex; [|intros [= <-]; by left].
  intros [[-> Hfree]|(Hcand & c' & Hle & -> & Hfree & Hall)]%IH; right;
    (split; [done|]).
  - exists c. split; [lia|]. split; [done|]. split; [done|]. intros k ?. lia.
  - exists c'. split; [lia|]. split; [done|]. split; [done|].
    intros k Hk. destruct (decide (k = c)) as [->|]; [done|].
    apply Hall. lia.
Qed.

(** X14. [_generate_save_path] returns the base name when it is free, and
    otherwise the name with the smallest counter, from 1, whose path is
    free: every smaller counter is taken. *)
Theorem generate_save_path_takes_first_free_counter
    (fs : gmap string node) (directory base_file_name p : string) :
  _generate_save_path fs directory base_file_name = Some p →
  let file_name := (os_path.splitext base_file_name).1 in
  let file_ext := (os_path.splitext base_file_name).2 in
  (p = os_path.join directory base_file_name ∧ os.exists_ fs p = false)
  ∨ (os.exists_ fs (os_path.join directory base_file_name) = true
     ∧ ∃ c, (1 ≤ c)%N
            ∧ p = os_path.join directory
                    (file_name +:+ "_" +:+ pretty c +:+ file_ext)
            ∧ os.exists_ fs p = false
            ∧ ∀ k, (1 ≤ k < c)%N →
                os.exists_ fs
                  (os_path.join directory
                     (file_name +:+ "_" +:+ pretty k +:+ file_ext)) = true).
Proof.
  unfold _generate_save_path.
  destruct (os_path.splitext base_file_name) as [fn fe]. cbn [fst snd].
  intros [[-> Hfree]|H]%save_path_loop_first_free; [by left|by right].
Qed.


Lemma for_each_returns {A} (l : list A) (body : A → M unit) s :
  (∀ x s0, (body x s0).2 = Ok ()) →
  (MetaBridge.for_each l body s).2 = Ok ().
Proof.
  intros Hbody. revert s. induction l as [|x l IH]; intros s; [done|].
  cbn [MetaBridge.for_each]. rewrite run_bind.
  specialize (Hbody x s). destruct (body x s) as [s1 [[]|e]]; [apply IH|done].
Qed.

(** X16. [process_stickers] never raises, whatever the sticker files are,
    and does nothing when the export has no sticker directory. *)
Theorem process_stickers_never_raises (args : MetaBridge.args_ns) (s : state) :
  (MetaBridge.process_stickers args s).2 = Ok ()
  ∧ (os.isdir (fs s)
       (os_path.join (MetaBridge.args_path args) MetaBridge.uri_base) = false →
     MetaBridge.process_stickers args s = (s, Ok ())).
Proof.
  unfold MetaBridge.process_stickers. run. split.
  - destruct (_ || _); [done|]. apply for_each_returns.
    intros file_name s0. run. destruct (os.isfile _ _); [|done].
    unfold try_except. by destruct (_ ≫= _) as [s1 [[]|e]].
  - intros ->. by rewrite orb_true_r.
Qed.



End MoreResolver.

(** ** What is on the disk stays there *)

Section Keeps.
Context `{Ext : Externals}.
Import MediaProcessor.

(** Every node of [s] is a node of [s'], unchanged. *)
Definition grows (s s' : state) : Prop := fs s ⊆ fs s'.

(** As long as [p] is no directory, no node but [p] is changed or removed. *)
Definition keeps_others (p : string) (s s' : state) : Prop :=
  fs s !! p ≠ Some Dir →
  fs s' !! p ≠ Some Dir ∧ ∀ q n, q ≠ p → fs s !! q = Some n → fs s' !! q = Some n.

Global Instance grows_refl : Reflexive grows.
Proof. intros s. unfold grows. reflexivity. Qed.
Global Instance grows_trans : Transitive grows.
Proof. intros s1 s2 s3 ??. unfold grows in *. by etrans. Qed.
Global Instance keeps_others_refl p : Reflexive (keeps_others p).
Proof. intros s Hp. split; [done|]. by intros q n _ ?. Qed.
Global Instance keeps_others_trans p : Transitive (keeps_others p).
Proof.
  intros s1 s2 s3 H12 H23 Hp. destruct (H12 Hp) as [Hp2 H2].
  destruct (H23 Hp2) as [Hp3 H3]. split; [done|]. intros q n ??. eauto.
Qed.

(** A computation that leaves the file system alone. *)
Lemma same_fs_keeps {A} (R : relation state) (m : M A) :
  (∀ s s', fs s' = fs s → R s s') →
  (∀ s, fs (m s).1 = fs s) → preserves R m.
Proof. intros HR H s s' r Hrun. apply HR. specialize (H s). by rewrite Hrun in H. Qed.

Lemma same_fs_grows s s' : fs s' = fs s → grows s s'.
Proof. unfold grows. by intros ->. Qed.

Lemma same_fs_keeps_others p s s' : fs s' = fs s → keeps_others p s s'.
Proof. unfold keeps_others. by intros ->. Qed.

Lemma get_metadata_fs s : fs (get_metadata s).1 = fs s.
Proof. unfold get_metadata. run. by destruct (metadata (self s)). Qed.

Lemma add_processed_fs pair s : fs (add_processed pair s).1 = fs s.
Proof. done. Qed.

Lemma handler_init_fs uri s : fs (ExifImageHandler.__init__ uri s).1 = fs s.
Proof.
  pose proof (handler_init_spec uri s) as H.
  destruct (ExifImageHandler.__init__ uri s) as [s' [h|e]]; cbn.
  - by destruct H as [-> _].
  - by subst.
Qed.

Lemma makedirs_grows d : preserves grows (os.makedirs d).
Proof.
  intros s s' r. unfold os.makedirs. run.
  destruct (bool_decide (d = "")); run; [by intros [= <- <-]|].
  destruct (fs s !! d) as [[|f]|] eqn:Hd; run; intros [= <- <-];
    unfold grows; cbn [fs]; try done.
  by apply insert_subseteq.
Qed.

Lemma makedirs_keeps_others p d :
  d ≠ p → preserves (keeps_others p) (os.makedirs d).
Proof.
  intros Hdp s s' r Hrun Hp. apply makedirs_grows in Hrun as Hg.
  unfold grows in Hg. rewrite map_subseteq_spec in Hg. split; [|by eauto].
  revert Hrun. unfold os.makedirs. run.
  destruct (bool_decide (d = "")); run; [by intros [= <- <-]|].
  destruct (fs s !! d) as [[|f]|] eqn:Hd; run; intros [= <- <-]; try done.
  cbn [fs]. by rewrite lookup_insert_ne.
Qed.

Local Ltac kept :=
  intros [= <- <-]; cbn [fs]; try done; rewrite ?lookup_insert_eq;
  (split; [first [done|congruence]|]); intros q n Hq ?;
  first [done | (rewrite lookup_insert_ne by done); done].

Lemma copy_keeps_others src p : preserves (keeps_others p) (shutil.copy src p).
Proof.
  intros s s' r Hrun Hp. revert Hrun. unfold shutil.copy. run.
  destruct (fs s !! src) as [[|f]|]; run; try kept.
  assert (os.isdir (fs s) p = false) as Hdir.
  { unfold os.isdir. by destruct (fs s !! p) as [[|?]|]. }
  repeat (rewrite Hdir; cbv iota).
  destruct (bool_decide (p = src)); run; kept.
Qed.

Lemma utime_keeps_others p t : preserves (keeps_others p) (os.utime p t).
Proof.
  intros s s' r Hrun Hp. revert Hrun. unfold os.utime. run.
  destruct (Py.as_int t) as [z|]; run; [|kept].
  destruct (_ || _); run; [kept|].
  destruct (fs s !! p) as [[|f]|] eqn:Hfp; run; kept.
Qed.

Lemma img_save_keeps_others h p format bytes :
  preserves (keeps_others p) (ExifImageHandler.img_save h p format bytes).
Proof.
  intros s s' r Hrun Hp. revert Hrun. unfold ExifImageHandler.img_save. run.
  destruct (Image_save _ _ _) as [data|]; run; [|kept].
  destruct (fs s !! p) as [[|f]|] eqn:Hfp; run; kept.
Qed.

Lemma handler_save_keeps_others h p :
  os_path.dirname p ≠ p → preserves (keeps_others p) (ExifImageHandler.save h p).
Proof.
  intros Hdp. unfold ExifImageHandler.save.
  apply preserves_bind; [apply _|apply preserves_lift, _|intros bytes].
  apply preserves_bind; [apply _|by apply makedirs_keeps_others|intros _].
  destruct (os_path.splitext p) as [? file_ext].
  apply preserves_bind; [apply _|apply img_save_keeps_others|intros _].
  unfold ExifImageHandler.update_file_timestamps.
  apply preserves_bind; [apply _|apply preserves_get_state, _|intros s1].
  apply utime_keeps_others.
Qed.

(** From a free path: whatever was there is still there. *)
Lemma keeps_others_free p s s' :
  fs s !! p = None → keeps_others p s s' → grows s s'.
Proof.
  intros Hnone Hk. destruct Hk as [_ Hk]; [by rewrite Hnone|].
  unfold grows. apply map_subseteq_spec. intros q n Hq. apply Hk; [|done].
  intros ->. congruence.
Qed.

(** The path the two branches write to is free and is not its own
    directory. *)
Lemma save_path_free_and_proper s md base p :
  _generate_filename md = Ok base →
  _generate_save_path (fs s) (save_directory md) base = Some p →
  fs s !! p = None ∧ os_path.dirname p ≠ p.
Proof.
  intros Hname Hp.
  destruct (save_path_found (fs s) (save_directory md) base) as (p' & Hp' & Hfree).
  rewrite Hp in Hp'. injection Hp' as <-.
  destruct (generated_name_lacks_sep _ _ Hname) as [Hl Hne].
  pose proof (generate_save_path_dirname _ _ _ _ Hl Hne Hp) as Hdir.
  split.
  - unfold os.exists_ in Hfree. apply bool_decide_eq_false in Hfree.
    by apply eq_None_not_Some.
  - intros E. rewrite E in Hdir. lia.
Qed.

Lemma non_image_try_grows : preserves grows non_image_try.
Proof.
  intros s s' r. unfold non_image_try, get_metadata. run.
  destruct (metadata (self s)) as [md|]; run; [|by intros [= <- <-]].
  destruct (_generate_filename md) as [base|] eqn:Hname; run;
    [|by intros [= <- <-]].
  destruct (_generate_save_path _ _ _) as [p|] eqn:Hp; [|by intros [= <- <-]].
  destruct (save_path_free_and_proper s md base p Hname Hp) as [Hnone Hdp].
  intros Hrun. apply (keeps_others_free p); [done|]. revert Hrun.
  apply preserves_bind; [apply _|by apply makedirs_keeps_others|intros _].
  apply preserves_bind; [apply _|apply copy_keeps_others|intros _].
  apply preserves_bind; [apply _|apply utime_keeps_others|intros _].
  apply same_fs_keeps; [apply same_fs_keeps_others|apply add_processed_fs].
Qed.

Lemma copy_non_image_grows : preserves grows _copy_non_image.
Proof.
  unfold _copy_non_image.
  apply preserves_bind; [apply _|apply preserves_get_state, _|intros s0].
  assert (preserves grows (get_metadata;; mret () : M unit)) as Hget.
  { apply preserves_bind; [apply _| |intros ?; apply preserves_ret, _].
    apply same_fs_keeps; [apply same_fs_grows|apply get_metadata_fs]. }
  destruct (is_dry_run (self s0)); [done|].
  apply preserves_try_except; [apply _|apply non_image_try_grows|by intros _].
Qed.

Lemma image_try_rest_keeps_others p :
  os_path.dirname p ≠ p → preserves (keeps_others p) (image_try_rest p).
Proof.
  intros Hdp. unfold image_try_rest.
  apply preserves_bind; [apply _| |intros md].
  { apply same_fs_keeps; [apply same_fs_keeps_others|apply get_metadata_fs]. }
  apply preserves_bind; [apply _| |intros h0].
  { apply same_fs_keeps; [apply same_fs_keeps_others|apply handler_init_fs]. }
  apply preserves_bind; [apply _|apply preserves_lift, _|intros h1].
  apply preserves_bind; [apply _|apply preserves_lift, _|intros h2].
  apply preserves_bind; [apply _|by apply handler_save_keeps_others|intros _].
  apply same_fs_keeps; [apply same_fs_keeps_others|apply add_processed_fs].
Qed.

Lemma copy_image_grows : preserves grows _copy_image.
Proof.
  intros s s' r. unfold _copy_image.
  destruct (is_dry_run (self s)).
  { apply preserves_bind; [apply _| |intros ?; apply preserves_ret, _].
    apply same_fs_keeps; [apply same_fs_grows|apply get_metadata_fs]. }
  unfold image_try_save_path, get_metadata. run.
  destruct (metadata (self s)) as [md|] eqn:Hmd; run.
  2:{ unfold image_except, get_metadata. run. rewrite Hmd. run.
      by intros [= <- <-]. }
  destruct (_generate_filename md) as [base|] eqn:Hname; run.
  2:{ unfold image_except, get_metadata. run. rewrite Hmd. run.
      by intros [= <- <-]. }
  destruct (_generate_save_path _ _ _) as [p|] eqn:Hp; [|by intros [= <- <-]].
  destruct (save_path_free_and_proper s md base p Hname Hp) as [Hnone Hdp].
  unfold try_except.
  destruct (image_try_rest p s) as [s1 [[]|e]] eqn:Hrest;
    apply image_try_rest_keeps_others in Hrest; try done;
    apply keeps_others_free in Hrest; try done.
  - by intros [= <- <-].
  - intros Hexc. etrans; [done|]. revert Hexc. unfold image_except.
    apply preserves_bind; [apply _| |intros _; apply copy_non_image_grows].
    apply same_fs_keeps; [apply same_fs_grows|apply get_metadata_fs].
Qed.

Lemma process_media_item_grows data save_directory :
  preserves grows (process_media_item data save_directory).
Proof.
  intros s s' r. rewrite process_media_item_run.
  destruct (Py.get data "uri" (JStr "")) as [[| | |uri| |]|];
    try (by intros [= <- <-]).
  destruct (negb _); [by intros [= <- <-]|].
  destruct (build_metadata _ _ _ _ _) as [md|]; [|by intros [= <- <-]].
  unfold dispatch. repeat case_match.
  - intros [= <- <-]. by apply same_fs_grows.
  - intros Hg%copy_image_grows. exact Hg.
  - intros Hg%copy_non_image_grows. exact Hg.
Qed.

End Keeps.

(** ** The manifests *)

Section Loading.
Context `{Ld : Loader}.
Import JSONFileManager.

Lemma endswith_spec (s suffix : string) :
  endswith s suffix = true ↔ ∃ stem, s = stem +:+ suffix.
Proof.
  unfold endswith. rewrite andb_true_iff, bool_decide_eq_true, Nat.leb_le.
  split.
  - intros [_ Hdrop].
    exists (Str.take (String.length s - String.length suffix) s).
    rewrite <- Hdrop at 2. by rewrite take_drop.
  - intros [stem ->]. rewrite length_app_str. split; [lia|].
    replace (String.length stem + String.length suffix
             - String.length suffix)%nat with (String.length stem) by lia.
    apply drop_app_length.
Qed.

Lemma join_suffix (a b suffix : string) :
  (∃ stem, b = stem +:+ suffix) → ∃ stem, os_path.join a b = stem +:+ suffix.
Proof.
  intros [stem ->]. rewrite join_as_prefix.
  eexists. by rewrite <- app_assoc_str.
Qed.

(** X19. A search path without the characters of a pattern gives only paths
    that end in [.json]; none at all when nothing exists at the path. *)
Theorem file_list_without_pattern
    (fs : gmap string node) (search_path : string) :
  Str.contains "*" search_path = false →
  Str.contains "?" search_path = false →
  Str.contains "[" search_path = false →
  (∀ p, p ∈ _generate_file_list fs search_path → ∃ stem, p = stem +:+ ".json")
  ∧ (os.exists_ fs search_path = false →
     _generate_file_list fs search_path = []).
Proof.
  intros H1 H2 H3. unfold _generate_file_list. rewrite H1, H2, H3.
  cbn [orb]. split.
  - destruct (os.isdir fs search_path).
    + intros p (f & -> & Hf)%list_elem_of_fmap.
      apply list_elem_of_In, filter_In in Hf as [_ Hf].
      by apply join_suffix, endswith_spec.
    + destruct (os.isfile fs search_path); [|by intros p ?%elem_of_nil].
      destruct (endswith search_path ".json") eqn:He;
        [|by intros p ?%elem_of_nil].
      intros p ->%list_elem_of_singleton. by apply endswith_spec.
  - unfold os.exists_, os.isdir, os.isfile.
    intros Hno%bool_decide_eq_false.
    destruct (fs !! search_path) as [[|f]|]; try done; by destruct Hno.
Qed.

(** What [load_json_file] returns for [json_file] in state [s]. *)
Definition loaded (s : state) (json_file : string) : json :=
  match fs s !! json_file with
  | Some (File f) =>
      match json_load (f_data f) with
      | Ok data => data
      | Raise _ => JDict []
      end
  | _ => JDict []
  end.

Lemma load_json_file_run (o : obj) (json_file : string) (s : state) :
  load_json_file o json_file s
  = (s, Ok ({| files := files o; json_data := loaded s json_file |},
            loaded s json_file)).
Proof.
  unfold load_json_file, try_except, open_and_load, loaded.
  rewrite run_bind. run.
  destruct (fs s !! json_file) as [[|f]|]; run; try done.
  by destruct (json_load (f_data f)).
Qed.

(** X20. [load_json_file] never raises and changes nothing outside the
    manager: it returns what [json.load] reads from the file, and the empty
    dictionary when the file cannot be opened or read; the value it returns
    is the one it keeps in [json_data]. *)
Theorem load_json_file_never_raises
    (o : obj) (json_file : string) (s : state) :
  ∃ data,
    load_json_file o json_file s
    = (s, Ok ({| files := files o; json_data := data |}, data))
    ∧ (∀ f d, fs s !! json_file = Some (File f) →
              json_load (f_data f) = Ok d → data = d)
    ∧ (data = JDict []
       ∨ ∃ f, fs s !! json_file = Some (File f)
              ∧ json_load (f_data f) = Ok data).
Proof.
  exists (loaded s json_file). split; [apply load_json_file_run|].
  unfold loaded. destruct (fs s !! json_file) as [[|f]|];
    [by split; [|left]| |by split; [|left]].
  destruct (json_load (f_data f)) as [d|e] eqn:Hload.
  - split; [|right; by exists f]. intros f0 d0 [= <-]. congruence.
  - split; [|by left]. intros f0 d0 [= <-]. congruence.
Qed.

End Loading.

Section Yielded.

(** The entries an attachment carries. *)
Definition attachment_entries (attachment : json) : list json :=
  match attachment with
  | JDict kv =>
      match Py.assoc "data" kv with
      | Some (JList l) => l
      | _ => []
      end
  | _ => []
  end.

(** An attachment as the exports have them: a dictionary whose ["data"], if
    it has one, is a list. *)
Definition attachment_ok (attachment : json) : Prop :=
  ∃ kv, attachment = JDict kv
        ∧ (Py.assoc "data" kv = None
           ∨ ∃ l, Py.assoc "data" kv = Some (JList l)).

Lemma attachments_loop_ok (attachments : list json) :
  Forall attachment_ok attachments →
  Attachments.attachments_loop attachments
  = (concat (attachment_entries <$> attachments), None).
Proof.
  induction 1 as [|a l (kv & -> & Hdata) _ IH]; [done|].
  cbn [Attachments.attachments_loop Py.contains Py.getitem fmap list_fmap
       concat attachment_entries].
  destruct Hdata as [Hd|[d Hd]]; rewrite Hd.
  - by rewrite bool_decide_eq_false_2 by (by intros [??]).
  - rewrite bool_decide_eq_true_2 by eauto. cbn. by rewrite IH.
Qed.

(** X21. For an entry whose attachments are dictionaries with a list (or
    nothing) under ["data"], [extract_attachment_data] yields the entries of
    all the attachments, in order, and ends normally; an entry without
    ["attachments"] yields nothing. *)
Theorem extract_attachment_data_yields_all_entries
    (entry : json) (attachments : list json) :
  Py.get entry "attachments" (JList []) = Ok (JList attachments) →
  Forall attachment_ok attachments →
  Attachments.extract_attachment_data entry
  = (concat (attachment_entries <$> attachments), None).
Proof.
  intros Hget Hok. unfold Attachments.extract_attachment_data.
  rewrite Hget. cbn [mbind result_bind Py.iter]. by apply attachments_loop_ok.
Qed.

Lemma attachments_loop_stops (before after : list json) (bad : json) :
  Forall attachment_ok before →
  Py.contains "data" bad = Raise TypeError →
  Attachments.attachments_loop (before ++ bad :: after)
  = (concat (attachment_entries <$> before), Some TypeError).
Proof.
  intros Hok Hbad. induction Hok as [|a l (kv & -> & Hdata) _ IH].
  - cbn [app Attachments.attachments_loop]. by rewrite Hbad.
  - cbn [app Attachments.attachments_loop Py.contains Py.getitem fmap
         list_fmap concat attachment_entries].
    destruct Hdata as [Hd|[d Hd]]; rewrite Hd.
    + rewrite bool_decide_eq_false_2 by (by intros [??]). by rewrite IH.
    + rewrite bool_decide_eq_true_2 by eauto. cbn. by rewrite IH.
Qed.

(** X22. What was yielded before a value that is no attachment (a number,
    a boolean, [null]) is still yielded; the iteration then ends with the
    [TypeError] of the test ["data" in attachment]. *)
Theorem extract_attachment_data_stops_at_bad_attachment
    (entry : json) (before after : list json) (bad : json) :
  Py.get entry "attachments" (JList []) = Ok (JList (before ++ bad :: after)) →
  Forall attachment_ok before →
  bad = JNull ∨ (∃ b, bad = JBool b) ∨ (∃ z, bad = JInt z) →
  Attachments.extract_attachment_data entry
  = (concat (attachment_entries <$> before), Some TypeError).
Proof.
  intros Hget Hok Hbad. unfold Attachments.extract_attachment_data.
  rewrite Hget. cbn [mbind result_bind Py.iter].
  apply attachments_loop_stops; [done|].
  by destruct Hbad as [->|[[b ->]|[z ->]]].
Qed.

End Yielded.

(** ** The extractors and [main] *)

Section Runs.
Context `{Ext : Externals} `{Ld : Loader}.
Import MediaProcessor MetaBridge Extractors.

Lemma init_run path s :
  JSONFileManager.__init__ path s
  = (s, Ok {| JSONFileManager.files :=
                JSONFileManager._generate_file_list (fs s) path;
              JSONFileManager.json_data := JDict [] |}).
Proof. reflexivity. Qed.

Lemma load_json_file_state o json_file s :
  (JSONFileManager.load_json_file o json_file s).1 = s.
Proof.
  by rewrite load_json_file_run.
Qed.

Lemma getctime_state p s : (os.getctime p s).1 = s.
Proof. unfold os.getctime. run. by destruct (fs s !! p) as [[|f]|]. Qed.

(** What holds of every call of [process_media_item] holds of the loops
    around it. *)
Section Around.
Context (R : relation state) `{!Reflexive R, !Transitive R}.
Hypothesis Hitem :
  ∀ data save_directory, preserves R (process_media_item data save_directory).

Lemma preserves_pure {A} (m : M A) : (∀ s, (m s).1 = s) → preserves R m.
Proof.
  intros H s s' r Hrun. specialize (H s). rewrite Hrun in H. cbn in H.
  by subst.
Qed.

Lemma for_each_entry_preserves data key body :
  (∀ x, preserves R (body x)) → preserves R (for_each_entry data key body).
Proof.
  intros Hbody. unfold for_each_entry.
  apply preserves_bind; [done|by apply preserves_lift|intros ?].
  apply preserves_bind; [done|by apply preserves_lift|intros ?].
  by apply for_each_preserves.
Qed.

Lemma process_attachments_preserves entry save_directory :
  preserves R (process_attachments entry save_directory).
Proof.
  unfold process_attachments.
  destruct (Attachments.extract_attachment_data entry) as [yielded e].
  apply preserves_bind; [done| |intros _].
  - apply for_each_preserves; [done..|]. intros attachment_data.
    apply preserves_bind; [done|by apply preserves_lift|intros [|]].
    + apply preserves_bind; [done|by apply preserves_lift|intros ?].
      apply Hitem.
    + by apply preserves_ret.
  - destruct e; [by apply preserves_raise|by apply preserves_ret].
Qed.

Lemma for_each_manifest_preserves target_path body :
  (∀ data, preserves R (body data)) →
  preserves R (for_each_manifest target_path body).
Proof.
  intros Hbody. unfold for_each_manifest.
  apply preserves_bind; [done|by apply preserves_pure|intros file_manager].
  apply for_each_preserves; [done..|]. intros json_file.
  apply preserves_bind; [done| |intros [? data]; apply Hbody].
  apply preserves_pure, load_json_file_state.
Qed.

Lemma extract_albums_preserves args : preserves R (extract_albums args).
Proof.
  apply for_each_manifest_preserves. intros data.
  apply preserves_bind; [done|by apply preserves_lift|intros ?].
  apply preserves_bind; [done|by apply preserves_lift|intros ?].
  apply for_each_entry_preserves. intros ?. apply Hitem.
Qed.

Lemma extract_posts_preserves args : preserves R (extract_posts args).
Proof.
  apply for_each_manifest_preserves. intros data.
  apply preserves_bind; [done|by apply preserves_lift|intros ?].
  apply for_each_preserves; [done..|]. intros ?.
  apply process_attachments_preserves.
Qed.

Lemma extract_misc_preserves args : preserves R (extract_misc args).
Proof.
  apply for_each_manifest_preserves. intros data.
  apply for_each_entry_preserves. intros ?. apply Hitem.
Qed.

Lemma extract_videos_preserves args : preserves R (extract_videos args).
Proof.
  apply for_each_manifest_preserves. intros data.
  apply for_each_entry_preserves. intros ?. apply Hitem.
Qed.

Lemma extract_stories_preserves args : preserves R (extract_stories args).
Proof.
  apply for_each_manifest_preserves. intros data.
  apply for_each_entry_preserves. intros ?. apply process_attachments_preserves.
Qed.

Lemma process_reels_preserves args : preserves R (process_reels args).
Proof.
  apply for_each_manifest_preserves. intros data.
  apply for_each_entry_preserves. intros ?. apply process_attachments_preserves.
Qed.

Lemma process_stickers_preserves args : preserves R (process_stickers args).
Proof.
  unfold process_stickers.
  apply preserves_bind; [done|by apply preserves_get_state|intros s0].
  destruct (_ || _); [by apply preserves_ret|].
  apply for_each_preserves; [done..|]. intros file_name.
  apply preserves_bind; [done|by apply preserves_get_state|intros s1].
  destruct (os.isfile _ _); [|by apply preserves_ret].
  apply preserves_try_except; [done| |intros _; by apply preserves_ret].
  apply preserves_bind; [done| |intros ?; apply Hitem].
  apply preserves_pure, getctime_state.
Qed.

Lemma main_preserves args : preserves R (main args).
Proof.
  unfold main.
  apply preserves_bind; [done|apply extract_posts_preserves|intros _].
  apply preserves_bind; [done|apply extract_albums_preserves|intros _].
  apply preserves_bind; [done|apply extract_misc_preserves|intros _].
  apply preserves_bind; [done|apply extract_videos_preserves|intros _].
  apply preserves_bind; [done|apply extract_stories_preserves|intros _].
  apply preserves_bind; [done|apply process_reels_preserves|intros _].
  apply process_stickers_preserves.
Qed.

End Around.

Lemma process_media_item_dry_run_step data save_directory :
  preserves dry_run_step (process_media_item data save_directory).
Proof.
  intros s s' r Hrun Hdry.
  pose proof (process_media_item_dry data save_directory s Hdry) as Hd.
  by rewrite Hrun in Hd.
Qed.

(** X23. A call of [process_media_item], in either mode and whatever it is
    given, leaves every file and directory that exists as it is: nothing is
    overwritten, changed or removed, the call only adds. *)
Theorem process_media_item_keeps_what_exists
    (data : json) (save_directory : string) (s : state) :
  fs s ⊆ fs (process_media_item data save_directory s).1.
Proof.
  destruct (process_media_item data save_directory s) as [s' r] eqn:Hrun.
  by apply process_media_item_grows in Hrun.
Qed.

(** X24. The same holds of a whole run of [main], whatever the manifests
    hold and whether it ends normally or on an exception: the export is
    left as it was, and so is everything already in the destination (the
    log file that the [logging] set-up opens is outside the model). *)
Theorem main_keeps_what_exists (args : args_ns) (s : state) :
  fs s ⊆ fs (main args s).1.
Proof.
  destruct (main args s) as [s' r] eqn:Hrun. revert Hrun.
  apply (main_preserves grows). apply process_media_item_grows.
Qed.

(** X25. With [--dry-run], a run of [main] from the state the script starts
    in writes nothing: the file system is as before, no call that writes was
    made, and no item is counted as processed. *)
Theorem main_dry_run_writes_nothing
    (args : args_ns) (fs0 : gmap string node) (now0 : Z) :
  args_dry_run args = true →
  let s' := (main args (start args fs0 now0)).1 in
  fs s' = fs0 ∧ ops s' = [] ∧ processed_items (self s') = ∅
  ∧ get_total_processed (self s') = 0%nat.
Proof.
  intros Hdry s'.
  assert (dry_run_step (start args fs0 now0) s') as Hstep.
  { unfold s'. destruct (main args (start args fs0 now0)) as [s1 r] eqn:Hrun.
    revert Hrun. apply (main_preserves dry_run_step).
    apply process_media_item_dry_run_step. }
  destruct (Hstep Hdry) as (Hfs & Hops & _ & Hproc & _).
  unfold get_total_processed. rewrite Hfs, Hops, Hproc. done.
Qed.

End Runs.

(** ** What an extractor hands to [process_media_item] *)

Section Calls.
Context `{Ext : Externals} `{Ld : Loader}.
Import MediaProcessor MetaBridge Extractors.

Lemma then_ret (m : M unit) s : (m;; mret ()) s = m s.
Proof. rewrite run_bind. by destruct (m s) as [s' [[]|e]]. Qed.

Lemma for_each_app {A} (l1 l2 : list A) (body : A → M unit) s :
  for_each (l1 ++ l2) body s = (for_each l1 body;; for_each l2 body) s.
Proof.
  revert s. induction l1 as [|x l1 IH]; intros s; [done|].
  cbn [app for_each]. rewrite run_assoc, !run_bind.
  destruct (body x s) as [s1 [[]|e]]; [|done]. apply IH.
Qed.

Lemma for_each_ext {A} (l : list A) (body body' : A → M unit) s :
  (∀ x s0, x ∈ l → body x s0 = body' x s0) →
  for_each l body s = for_each l body' s.
Proof.
  revert s. induction l as [|x l IH]; intros s Hbody; [done|].
  cbn [for_each]. rewrite !run_bind, Hbody by left.
  destruct (body' x s) as [s1 [[]|e]]; [|done].
  apply IH. intros y s0 Hy. apply Hbody. by right.
Qed.

Lemma for_each_fmap {A B} (f : A → B) (l : list A) (body : B → M unit) s :
  for_each (f <$> l) body s = for_each l (λ x, body (f x)) s.
Proof.
  revert s. induction l as [|x l IH]; intros s; [done|].
  cbn [fmap list_fmap for_each]. rewrite !run_bind.
  destruct (body (f x) s) as [s1 [[]|e]]; [|done]. apply IH.
Qed.

Lemma for_each_concat {A} (ls : list (list A)) (body : A → M unit) s :
  for_each ls (λ l, for_each l body) s = for_each (concat ls) body s.
Proof.
  revert s. induction ls as [|l ls IH]; intros s; [done|].
  cbn [concat for_each]. rewrite for_each_app, !run_bind.
  destruct (for_each l body s) as [s1 [[]|e]]; [|done]. apply IH.
Qed.

(** The media item an entry of an attachment carries. *)
Definition media_of (attachment_data : json) : option json :=
  match attachment_data with
  | JDict kv => Py.assoc "media" kv
  | _ => None
  end.

Definition is_dict (v : json) : Prop := ∃ kv, v = JDict kv.

Lemma for_each_media (yielded : list json) (save_directory : string) s :
  Forall is_dict yielded →
  for_each yielded (λ attachment_data,
    has_media ← lift (Py.contains "media" attachment_data);
    if has_media : bool then
      media ← lift (Py.getitem attachment_data "media");
      process_media_item media save_directory
    else mret ()) s
  = process_all ((λ media, (media, save_directory)) <$> omap media_of yielded) s.
Proof.
  intros Hok. revert s. unfold process_all.
  induction Hok as [|x l [kv ->] _ IH]; intros s; [done|].
  cbn [for_each omap list_omap media_of Py.contains Py.getitem]. run.
  destruct (Py.assoc "media" kv) as [media|].
  - rewrite bool_decide_eq_true_2 by eauto. run.
    cbn [fmap list_fmap for_each]. rewrite !run_bind.
    destruct (process_media_item media save_directory s) as [s1 [[]|e]];
      [|done].
    apply IH.
  - rewrite bool_decide_eq_false_2 by (by intros [??]). run. apply IH.
Qed.

(** A post (a story, a reel) as the exports have them, with the media items
    its attachments carry. *)
Definition entry_media (entry : json) (media : list json) : Prop :=
  ∃ attachments,
    Py.get entry "attachments" (JList []) = Ok (JList attachments)
    ∧ Forall attachment_ok attachments
    ∧ Forall is_dict (concat (attachment_entries <$> attachments))
    ∧ media = omap media_of (concat (attachment_entries <$> attachments)).

Lemma process_attachments_run entry media save_directory s :
  entry_media entry media →
  process_attachments entry save_directory s
  = process_all ((λ m, (m, save_directory)) <$> media) s.
Proof.
  intros (attachments & Hget & Hok & Hdict & ->). unfold process_attachments.
  unfold Attachments.extract_attachment_data. rewrite Hget.
  cbn [mbind result_bind Py.iter]. rewrite attachments_loop_ok by done.
  rewrite then_ret. by apply for_each_media.
Qed.

Lemma for_each_manifest_single target_path body f s :
  JSONFileManager._generate_file_list (fs s) target_path = [f] →
  for_each_manifest target_path body s = body (loaded s f) s.
Proof.
  intros Hf. unfold for_each_manifest. rewrite run_bind, init_run.
  cbn [JSONFileManager.files]. rewrite Hf. cbn [for_each].
  rewrite then_ret, run_bind, load_json_file_run. done.
Qed.

Lemma loaded_ok s f file data :
  fs s !! f = Some (File file) → json_load (f_data file) = Ok data →
  loaded s f = data.
Proof. intros Hf Hload. unfold loaded. by rewrite Hf, Hload. Qed.

(** X26. An album manifest [{"name": n, "photos": [...]}] found alone: its
    photos go to [process_media_item] in the order of the manifest, all of
    them for the directory [albums/n] under the save path. *)
Theorem extract_albums_processes_photos_in_order
    (args : args_ns) (s : state) (f : string) (file : file) (data : json)
    (name : string) (photos : list json) :
  JSONFileManager._generate_file_list (fs s)
    (os_path.join (args_path args) "your_facebook_activity/posts/album/*.json")
    = [f] →
  fs s !! f = Some (File file) →
  json_load (f_data file) = Ok data →
  Py.get data "name" (JStr "") = Ok (JStr name) →
  Py.get data "photos" (JList []) = Ok (JList photos) →
  extract_albums args s
  = process_all
      ((λ photo,
          (photo,
           os_path.join (os_path.join (args_save_path args) "albums") name))
         <$> photos) s.
Proof.
  intros Hf Hfile Hload Hname Hphotos. unfold extract_albums.
  rewrite (for_each_manifest_single _ _ f) by done.
  rewrite (loaded_ok _ _ _ _ Hfile Hload). run. rewrite Hname. run.
  cbn [join_value]. run. unfold for_each_entry. rewrite Hphotos. run.
  cbn [Py.iter]. run. unfold process_all. by rewrite for_each_fmap.
Qed.

(** X27. A posts manifest found alone, a list of posts as the exports have
    them: the media items of all attachments of all posts go to
    [process_media_item] in order, for the directory [posts]; entries
    without ["media"] are passed over. *)
Theorem extract_posts_processes_media_in_order
    (args : args_ns) (s : state) (f : string) (file : file)
    (posts : list json) (media : list (list json)) :
  JSONFileManager._generate_file_list (fs s)
    (os_path.join (args_path args)
       "your_facebook_activity/posts/your_posts__check_ins__photos_and_videos*.json")
    = [f] →
  fs s !! f = Some (File file) →
  json_load (f_data file) = Ok (JList posts) →
  Forall2 entry_media posts media →
  extract_posts args s
  = process_all
      ((λ m, (m, os_path.join (args_save_path args) "posts"))
         <$> concat media) s.
Proof.
  intros Hf Hfile Hload Hposts. unfold extract_posts.
  rewrite (for_each_manifest_single _ _ f) by done.
  rewrite (loaded_ok _ _ _ _ Hfile Hload). cbn [Py.iter]. run.
  set (dir := os_path.join (args_save_path args) "posts").
  unfold process_all. rewrite for_each_fmap, <- for_each_concat.
  clear Hf Hfile Hload. revert s.
  induction Hposts as [|post m posts media Hpost _ IH]; intros s; [done|].
  cbn [for_each]. rewrite !run_bind.
  rewrite (process_attachments_run post m dir s Hpost).
  unfold process_all. rewrite for_each_fmap.
  destruct (for_each m _ s) as [s1 [[]|e]]; [|done].
  apply IH.
Qed.

(** The body of each of the six loops does nothing on the empty dictionary. *)
Lemma for_each_entry_empty key body s :
  for_each_entry (JDict []) key body s = (s, Ok ()).
Proof. reflexivity. Qed.



(** X29. A manifest of albums whose top level is not an object (a list,
    for instance) stops [extract_albums]: [data.get] raises
    [AttributeError], which nothing catches, before any item is processed. *)
Theorem album_manifest_of_wrong_shape_raises
    (args : args_ns) (s : state) (f : string) (rest : list string)
    (file : file) (data : json) :
  JSONFileManager._generate_file_list (fs s)
    (os_path.join (args_path args) "your_facebook_activity/posts/album/*.json")
    = f :: rest →
  fs s !! f = Some (File file) →
  json_load (f_data file) = Ok data →
  (∀ kv, data ≠ JDict kv) →
  extract_albums args s = (s, Raise AttributeError).
Proof.
  intros Hf Hfile Hload Hshape. unfold extract_albums, for_each_manifest.
  rewrite run_bind, init_run. cbn [JSONFileManager.files]. rewrite Hf.
  cbn [for_each]. rewrite run_bind, run_bind, load_json_file_run.
  rewrite (loaded_ok _ _ _ _ Hfile Hload). run.
  destruct data; try done. by destruct (Hshape kv).
Qed.

End Calls.

(** ** The claims on concrete inputs *)

Module Examples.
Import MediaProcessor Demo.
#[local] Existing Instance Demo.externals.

Ltac by_computation := intros; repeat apply conj; vm_compute; reflexivity.

(** An export with one picture and two videos. *)
Definition export_fs : gmap string node :=
  {[ "export/your_facebook_activity/posts/media/a.jpg" := a_file "IMGa" 5;
     "export/your_facebook_activity/posts/media/b.mp4" := a_file "b" 6;
     "export/your_facebook_activity/posts/media/c.mp4" := a_file "c" 7 ]}.

Definition s0 : state := MetaBridge.start args export_fs 1800000000.

Definition video_b : json :=
  JDict [("uri", JStr "your_facebook_activity/posts/media/b.mp4");
         ("creation_timestamp", JInt 1700000000)].

Definition no_uri : list (string * json) :=
  [("description", JStr "a record without uri");
   ("creation_timestamp", JInt 1700000000)].

Example video_b_copied :
  ops (process_media_item video_b "out/posts" s0).1 =
  [OpMakedirs "out/posts";
   OpCopy "export/your_facebook_activity/posts/media/b.mp4"
     "out/posts/2023-11-14_14.13.20.mp4";
   OpUtime "out/posts/2023-11-14_14.13.20.mp4" 1700000000].
Proof. vm_compute. reflexivity. Qed.

Lemma record_without_uri_is_skipped_witness :
  Py.assoc "uri" no_uri = None
  ∧ process_media_item (JDict no_uri) "out/posts" s0 = (s0, Ok ()).
Proof.
  split; [reflexivity|].
  apply (record_without_uri_is_skipped no_uri "out/posts" s0). reflexivity.
Defined.

Lemma second_processing_is_noop_witness :
  let s1 := (process_media_item video_b "out/posts" s0).1 in
  let s2 := (process_media_item video_b "out/posts" s1).1 in
  get_total_processed (self s1) = 1%nat
  ∧ fs s2 = fs s1 ∧ ops s2 = ops s1
  ∧ get_total_processed (self s2) = get_total_processed (self s1).
Proof.
  intros s1 s2. split; [vm_compute; reflexivity|].
  destruct (second_processing_is_noop video_b video_b
              "your_facebook_activity/posts/media/b.mp4" "out/posts"
              s0 s1 s2
              (process_media_item video_b "out/posts" s0).2
              (process_media_item video_b "out/posts" s1).2)
    as (Hfs & Hops & _ & Hsize & _).
  - reflexivity.
  - reflexivity.
  - apply surjective_pairing.
  - apply (bool_decide_unpack _). vm_compute. exact I.
  - apply surjective_pairing.
  - exact (conj Hfs (conj Hops Hsize)).
Defined.

(** *** C1: a [taken_timestamp] of 0 *)

Definition photo_uri : string := "your_facebook_activity/posts/media/a.jpg".

Definition photo_taken_zero : json :=
  JDict [("uri", JStr photo_uri);
         ("creation_timestamp", JInt 1700000000);
         ("media_metadata",
          JDict [("photo_metadata",
                  JDict [("exif_data",
                          JList [JDict [("iso", JInt 100)];
                                 JDict [("taken_timestamp", JInt 0)]])])])].

(** C1 fails on this record. It has both timestamps, [taken_timestamp] being
    0 (1970-01-01T00:00:00Z); [taken or creation] takes 0 for absent, and
    the resolved timestamp is the [creation_timestamp]: the picture is named
    after 2023-11-14. *)
Theorem taken_timestamp_zero_is_dropped :
  _extract_taken_timestamp photo_taken_zero = Ok (JInt 0)
  ∧ Py.get photo_taken_zero "creation_timestamp" (JInt (now s0))
    = Ok (JInt 1700000000)
  ∧ timestamp <$> build_metadata "export" (now s0) photo_taken_zero photo_uri
                    "out/posts"
    = Ok (JInt 1700000000)
  ∧ (timestamp <$> metadata (self (process_media_item photo_taken_zero
                                     "out/posts" s0).1))
    = Some (JInt 1700000000)
  ∧ os.isfile (fs (process_media_item photo_taken_zero "out/posts" s0).1)
      "out/posts/2023-11-14_14.13.20.jpg" = true.
Proof. by_computation. Qed.

(** *** C2: a timestamp in milliseconds *)

Definition photo_milliseconds : json :=
  JDict [("uri", JStr photo_uri); ("creation_timestamp", JInt 1700000000000)].

Definition md_milliseconds : metadata_dict :=
  {| uri_path := "export/your_facebook_activity/posts/media/a.jpg";
     description := JStr "";
     creation_timestamp := JInt 1700000000000;
     taken_timestamp := JNull;
     save_directory := "out/posts";
     timestamp := JInt 1700000000000 |}.

Lemma copy_image_raises_when_filename_fails_witness :
  _generate_filename md_milliseconds = Raise ValueError
  ∧ _copy_image (with_metadata md_milliseconds s0)
    = (with_metadata md_milliseconds s0, Raise UnboundLocalError).
Proof.
  split; [vm_compute; reflexivity|].
  apply (copy_image_raises_when_filename_fails
           (with_metadata md_milliseconds s0) md_milliseconds ValueError).
  - reflexivity.
  - reflexivity.
  - vm_compute; reflexivity.
Defined.

(** The same through [process_media_item]: the exception reaches the
    caller, nothing is copied and the item is not counted. *)
Example photo_milliseconds_is_dropped :
  let run := process_media_item photo_milliseconds "out/posts" s0 in
  run.2 = Raise UnboundLocalError ∧ ops run.1 = []
  ∧ map_to_list (fs run.1) = map_to_list (fs s0)
  ∧ get_total_processed (self run.1) = 0%nat.
Proof. by_computation. Qed.

(** *** C3: a sticker that is a picture *)

Definition stickers_fs : gmap string node :=
  {[ "export/your_facebook_activity/posts/media/stickers_used/" := Dir;
     "export/your_facebook_activity/posts/media/stickers_used/s.png"
       := a_file "IMGs" 1600000000;
     "export/your_facebook_activity/posts/media/stickers_used/t.bin"
       := a_file "raw" 1600000000 ]}.

Definition is_image_save (op : fsop) : bool :=
  match op with
  | OpImageSave _ _ _ => true
  | _ => false
  end.

Definition copied_to (op : fsop) : option string :=
  match op with
  | OpCopy _ dst => Some dst
  | _ => None
  end.

(** C3 fails on this directory. The file [s.png] goes through
    [process_media_item] like any record, its extension sends it to the
    image branch: it is saved again through PIL with [DateTimeOriginal] set,
    not copied; only [t.bin] is copied. *)
Theorem sticker_png_goes_through_image_branch :
  let s' := (MetaBridge.process_stickers args
               (MetaBridge.start args stickers_fs 1800000000)).1 in
  os.listdir stickers_fs "export/your_facebook_activity/posts/media/stickers_used/"
    = ["s.png"; "t.bin"]
  ∧ omap copied_to (ops s') = ["out/stickers/2020-09-13_05.26.40.bin"]
  ∧ (λ op, match op with
           | OpImageSave p _ e =>
               Some (p, ifds e !! "Exif" ≫= (.!! ExifIFD.DateTimeOriginal))
           | _ => None
           end) <$> filter (λ op, is_image_save op = true) (ops s')
    = [Some ("out/stickers/2020-09-13_05.26.40.png",
             Some (JStr "2020:09:13 12:26:40"))]
  ∧ f_data <$> (fs s' !! "out/stickers/2020-09-13_05.26.40.png"
                ≫= λ n, match n with File f => Some f | Dir => None end)
    = Some "IMGs+exif:2020:09:13 12:26:40".
Proof. by_computation. Qed.

(** *** C4: a negative timestamp *)



Definition md_video_b : metadata_dict :=
  {| uri_path := "export/your_facebook_activity/posts/media/b.mp4";
     description := JStr "";
     creation_timestamp := JInt 1700000000;
     taken_timestamp := JNull;
     save_directory := "out/posts";
     timestamp := JInt 1700000000 |}.


(** *** C7: the destination already holds the name *)

Definition video_c : json :=
  JDict [("uri", JStr "your_facebook_activity/posts/media/c.mp4");
         ("creation_timestamp", JInt 1700000000)].

(** The export of [export_fs], and a destination in which an earlier run
    has left a file under the base name. *)
Definition rerun_fs : gmap string node :=
  <["out/posts/2023-11-14_14.13.20.mp4" := a_file "b" 1700000000]> export_fs.



(** Both videos in a fresh destination: the second one gets [_1]. *)
Example second_item_gets_1_when_fresh :
  omap copied_to
    (ops ((process_media_item video_b "out/posts";;
           process_media_item video_c "out/posts") s0).1)
  = ["out/posts/2023-11-14_14.13.20.mp4";
     "out/posts/2023-11-14_14.13.20_1.mp4"].
Proof. vm_compute. reflexivity. Qed.

(** A source without extension: the base file name is the bare date, whose
    last field [_generate_save_path] takes for the extension. *)
Example counter_lands_before_the_seconds :
  _generate_save_path {[ "out/posts/2023-11-14_14.13.20" := a_file "x" 0 ]}
    "out/posts" "2023-11-14_14.13.20"
  = Some "out/posts/2023-11-14_14.13_1.20".
Proof. vm_compute. reflexivity. Qed.

(** *** C8: an extension in capitals *)




End Examples.

(** ** The further properties on concrete inputs *)

Module MoreExamples.
Import MediaProcessor Demo Examples.
#[local] Existing Instance Demo.externals.

(** *** Records *)

Definition foreign : json :=
  JDict [("uri", JStr "photos_and_videos/a.jpg");
         ("creation_timestamp", JInt 1700000000)].

Lemma foreign_uri_is_skipped_witness :
  Py.get foreign "uri" (JStr "") = Ok (JStr "photos_and_videos/a.jpg")
  ∧ Str.startswith "photos_and_videos/a.jpg" "your_facebook_activity" = false
  ∧ process_media_item foreign "out/posts" s0 = (s0, Ok ()).
Proof.
  split; [reflexivity|]. split; [reflexivity|].
  apply (foreign_uri_is_skipped foreign "photos_and_videos/a.jpg");
    reflexivity.
Defined.

Definition numbered_uri : json := JDict [("uri", JInt 5)].

Lemma uri_that_is_no_string_raises_witness :
  (∀ uri, Py.get numbered_uri "uri" (JStr "") ≠ Ok (JStr uri))
  ∧ process_media_item numbered_uri "out/posts" s0 = (s0, Raise AttributeError).
Proof.
  assert (∀ uri, Py.get numbered_uri "uri" (JStr "") ≠ Ok (JStr uri)) as H
    by (intros uri; discriminate).
  exact (conj H (uri_that_is_no_string_raises numbered_uri "out/posts" s0 H)).
Defined.

Definition video_b_fields : list (string * json) :=
  [("uri", JStr "your_facebook_activity/posts/media/b.mp4");
   ("creation_timestamp", JInt 1700000000)].

Lemma creation_timestamp_resolves_without_taken_witness :
  _extract_taken_timestamp (JDict video_b_fields) = Ok JNull
  ∧ build_metadata "export" 1800000000 (JDict video_b_fields)
      "your_facebook_activity/posts/media/b.mp4" "out/posts" = Ok md_video_b
  ∧ timestamp md_video_b
    = default (JInt 1800000000) (Py.assoc "creation_timestamp" video_b_fields).
Proof.
  split; [reflexivity|]. split; [reflexivity|].
  apply (creation_timestamp_resolves_without_taken "export" 1800000000
           video_b_fields "your_facebook_activity/posts/media/b.mp4"
           "out/posts" md_video_b); reflexivity.
Defined.

Definition null_metadata : list (string * json) :=
  [("uri", JStr "your_facebook_activity/posts/media/a.jpg");
   ("media_metadata", JNull)].

Lemma present_but_malformed_media_metadata_raises_witness :
  Py.assoc "uri" null_metadata
    = Some (JStr "your_facebook_activity/posts/media/a.jpg")
  ∧ Str.startswith "your_facebook_activity/posts/media/a.jpg"
      "your_facebook_activity" = true
  ∧ Py.assoc "media_metadata" null_metadata = Some JNull
  ∧ (∀ d, JNull ≠ JDict d)
  ∧ _extract_taken_timestamp (JDict null_metadata) = Raise AttributeError
  ∧ process_media_item (JDict null_metadata) "out/posts" s0
    = (s0, Raise AttributeError).
Proof.
  assert (∀ d, JNull ≠ JDict d) as H by (intros d; discriminate).
  split; [reflexivity|]. split; [reflexivity|]. split; [reflexivity|].
  split; [exact H|].
  apply (present_but_malformed_media_metadata_raises null_metadata
           "your_facebook_activity/posts/media/a.jpg" "out/posts" JNull s0);
    [reflexivity|reflexivity|reflexivity|exact H].
Defined.

Lemma extract_taken_timestamp_tolerates_missing_keys_witness :
  Py.assoc "media_metadata" video_b_fields = None
  ∧ _extract_taken_timestamp (JDict video_b_fields) = Ok JNull.
Proof.
  split; [reflexivity|].
  apply (extract_taken_timestamp_tolerates_missing_keys video_b_fields).
  left. reflexivity.
Defined.

Definition exif_entries (l : list json) : json :=
  JDict [("uri", JStr "your_facebook_activity/posts/media/a.jpg");
         ("media_metadata",
          JDict [("photo_metadata", JDict [("exif_data", JList l)])])].

Lemma extract_taken_timestamp_takes_first_entry_witness :
  let l1 := [JDict [("iso", JInt 100)]] in
  let d := [("taken_timestamp", JInt 1600000000)] in
  let l2 := [JDict [("taken_timestamp", JInt 5)]] in
  Forall lacks_taken l1
  ∧ Py.assoc "taken_timestamp" d = Some (JInt 1600000000)
  ∧ _extract_taken_timestamp (exif_entries (l1 ++ JDict d :: l2))
    = Ok (JInt 1600000000).
Proof.
  intros l1 d l2.
  assert (Forall lacks_taken l1) as H1.
  { constructor; [|constructor]. eexists. split; reflexivity. }
  split; [exact H1|]. split; [reflexivity|].
  apply (extract_taken_timestamp_takes_first_entry (exif_entries _)
           (JDict [("photo_metadata",
                    JDict [("exif_data", JList (l1 ++ JDict d :: l2))])])
           (JDict [("exif_data", JList (l1 ++ JDict d :: l2))]) l1 l2 d);
    [reflexivity|reflexivity|reflexivity|exact H1|reflexivity].
Defined.

Lemma extract_taken_timestamp_none_without_entry_witness :
  let l := [JDict [("iso", JInt 100)]; JDict [("f_stop", JStr "2.2")]] in
  Forall lacks_taken l
  ∧ _extract_taken_timestamp (exif_entries l) = Ok JNull.
Proof.
  intros l.
  assert (Forall lacks_taken l) as H1.
  { repeat constructor; eexists; split; reflexivity. }
  split; [exact H1|].
  apply (extract_taken_timestamp_none_without_entry (exif_entries l)
           (JDict [("photo_metadata", JDict [("exif_data", JList l)])])
           (JDict [("exif_data", JList l)]) l);
    [reflexivity|reflexivity|reflexivity|exact H1].
Defined.


(** *** The two branches *)

(** The state in which [process_media_item] enters a branch for the video
    [b.mp4]. *)
Definition s_video : state := with_metadata md_video_b s0.

Lemma copy_non_image_never_raises_witness :
  metadata (self s_video) = Some md_video_b
  ∧ ∃ s', _copy_non_image s_video = (s', Ok ()).
Proof.
  split; [reflexivity|].
  apply (copy_non_image_never_raises s_video md_video_b). reflexivity.
Defined.


(** A record whose file is not in the export. *)
Definition md_missing : metadata_dict :=
  {| uri_path := "export/your_facebook_activity/posts/media/gone.mp4";
     description := JStr "";
     creation_timestamp := JInt 1700000000;
     taken_timestamp := JNull;
     save_directory := "out/posts";
     timestamp := JInt 1700000000 |}.

Definition s_missing : state := with_metadata md_missing s0.

Lemma missing_source_is_not_counted_witness :
  is_dry_run (self s_missing) = false
  ∧ metadata (self s_missing) = Some md_missing
  ∧ fs s_missing !! uri_path md_missing = None
  ∧ ∃ s', _copy_non_image s_missing = (s', Ok ())
          ∧ self s' = self s_missing
          ∧ ∀ q f, fs s' !! q = Some (File f) →
                   fs s_missing !! q = Some (File f).
Proof.
  assert (fs s_missing !! uri_path md_missing = None) as Hsrc
    by (vm_compute; reflexivity).
  refine (conj eq_refl (conj eq_refl (conj Hsrc _))).
  exact (missing_source_is_not_counted s_missing md_missing
           eq_refl eq_refl Hsrc).
Defined.

(** A file with the name of a picture that PIL does not open. *)
Definition broken_fs : gmap string node :=
  <["export/your_facebook_activity/posts/media/d.jpg" := a_file "not a picture" 8]>
    export_fs.

Definition md_broken : metadata_dict :=
  {| uri_path := "export/your_facebook_activity/posts/media/d.jpg";
     description := JStr "";
     creation_timestamp := JInt 1700000000;
     taken_timestamp := JNull;
     save_directory := "out/posts";
     timestamp := JInt 1700000000 |}.

Definition s_broken : state :=
  with_metadata md_broken (MetaBridge.start args broken_fs 1800000000).

Lemma copy_image_of_unreadable_picture_is_raw_copy_witness :
  is_dry_run (self s_broken) = false
  ∧ metadata (self s_broken) = Some md_broken
  ∧ _generate_filename md_broken = Ok "2023-11-14_14.13.20.jpg"
  ∧ (∀ f, fs s_broken !! uri_path md_broken = Some (File f) →
          ∃ e, Image_open (f_data f) = Raise e)
  ∧ _copy_image s_broken = _copy_non_image s_broken.
Proof.
  assert (_generate_filename md_broken = Ok "2023-11-14_14.13.20.jpg") as Hname
    by (vm_compute; reflexivity).
  assert (∀ f, fs s_broken !! uri_path md_broken = Some (File f) →
               ∃ e, Image_open (f_data f) = Raise e) as Hbad.
  { intros f Hf.
    assert (fs s_broken !! uri_path md_broken
            = Some (a_file "not a picture" 8)) as Hd
      by (vm_compute; reflexivity).
    rewrite Hd in Hf. injection Hf as <-. exists LibraryError. reflexivity. }
  refine (conj eq_refl (conj eq_refl (conj Hname (conj Hbad _)))).
  exact (copy_image_of_unreadable_picture_is_raw_copy s_broken md_broken _
           eq_refl eq_refl Hname Hbad).
Defined.

Definition md_picture : metadata_dict :=
  {| uri_path := "export/your_facebook_activity/posts/media/a.jpg";
     description := JStr "At the lake";
     creation_timestamp := JInt 1700000000;
     taken_timestamp := JInt 1600000000;
     save_directory := "out/posts";
     timestamp := JInt 1600000000 |}.

Definition s_picture : state := with_metadata md_picture s0.

Lemma copy_image_saves_or_falls_back_witness :
  is_dry_run (self s_picture) = false
  ∧ metadata (self s_picture) = Some md_picture
  ∧ _generate_filename md_picture = Ok "2020-09-13_05.26.40.jpg"
  ∧ ∃ p s',
      _generate_save_path (fs s_picture) (save_directory md_picture)
        "2020-09-13_05.26.40.jpg" = Some p
      ∧ _copy_image s_picture = (s', Ok ())
      ∧ ((∃ e format t f,
            OpImageSave p format e ∈ ops s'
            ∧ Py.as_int (timestamp md_picture) = Ok t
            ∧ date_time_original e
              = Some (JStr (datetime.strftime_exif (datetime.of_seconds t)))
            ∧ (Py.truthy (description md_picture) = true →
               image_description e = Some (description md_picture))
            ∧ fs s' !! p = Some (File f) ∧ f_mtime f = t
            ∧ (uri_path md_picture, save_directory md_picture)
              ∈ processed_items (self s'))
         ∨ ∃ s1, self s1 = self s_picture
                 ∧ (∀ q f, fs s1 !! q = Some (File f) →
                           fs s_picture !! q = Some (File f))
                 ∧ _copy_non_image s1 = (s', Ok ())).
Proof.
  assert (_generate_filename md_picture = Ok "2020-09-13_05.26.40.jpg")
    as Hname by (vm_compute; reflexivity).
  refine (conj eq_refl (conj eq_refl (conj Hname _))).
  exact (copy_image_saves_or_falls_back s_picture md_picture _
           eq_refl eq_refl Hname).
Defined.

Lemma generate_save_path_takes_first_free_counter_witness :
  let base := "2023-11-14_14.13.20.mp4" in
  let p := "out/posts/2023-11-14_14.13.20_1.mp4" in
  _generate_save_path rerun_fs "out/posts" base = Some p
  ∧ ((p = os_path.join "out/posts" base ∧ os.exists_ rerun_fs p = false)
     ∨ (os.exists_ rerun_fs (os_path.join "out/posts" base) = true
        ∧ ∃ c, (1 ≤ c)%N
               ∧ p = os_path.join "out/posts"
                       ((os_path.splitext base).1 +:+ "_" +:+ pretty c
                        +:+ (os_path.splitext base).2)
               ∧ os.exists_ rerun_fs p = false
               ∧ ∀ k, (1 ≤ k < c)%N →
                   os.exists_ rerun_fs
                     (os_path.join "out/posts"
                        ((os_path.splitext base).1 +:+ "_" +:+ pretty k
                         +:+ (os_path.splitext base).2)) = true)).
Proof.
  intros base p.
  assert (_generate_save_path rerun_fs "out/posts" base = Some p) as Hp
    by (vm_compute; reflexivity).
  split; [exact Hp|].
  exact (generate_save_path_takes_first_free_counter rerun_fs "out/posts"
           base p Hp).
Defined.

(** *** The handler *)





(** *** Manifests *)

Definition album_manifest : json :=
  JDict [("name", JStr "Summer");
         ("photos",
          JList [JDict [("uri", JStr "your_facebook_activity/posts/media/a.jpg");
                        ("creation_timestamp", JInt 1700000000)];
                 video_b])].

Definition post_with_video : json :=
  JDict [("timestamp", JInt 1700000000);
         ("attachments",
          JList [JDict [("data",
                         JList [JDict [("media", video_b)];
                                JDict [("text", JStr "hello")]])];
                 JDict []])].

Definition post_without_attachments : json :=
  JDict [("title", JStr "a status update")].

Definition posts_manifest : json :=
  JList [post_with_video; post_without_attachments].

(** A loader for the examples: three files it can read, by their content. *)
Definition load_demo (bytes : string) : result json :=
  if bool_decide (bytes = "ALBUM") then Ok album_manifest
  else if bool_decide (bytes = "POSTS") then Ok posts_manifest
  else if bool_decide (bytes = "LIST") then Ok (JList [JInt 1])
  else Raise ValueError.

(** Patterns with one [*]: the paths that start with what is before it and
    end with what is after it. *)
Definition glob_demo (fs : gmap string node) (pattern : string) : list string :=
  let i := Z.to_nat (Str.rfind "*" pattern) in
  let before := Str.take i pattern in
  let after := Str.drop (S i) pattern in
  List.filter
    (λ p, Str.startswith p before
          && JSONFileManager.endswith p after
          && (String.length before + String.length after
              <=? String.length p)%nat)
    (map_to_list fs).*1.

Definition loader : Loader :=
  {| json_load := load_demo; glob_glob := glob_demo |}.

#[local] Existing Instance loader.

Definition manifests_fs : gmap string node :=
  <["export/your_facebook_activity/posts/album/0.json" := a_file "ALBUM" 9]>
    (<["export/your_facebook_activity/posts/your_posts__check_ins__photos_and_videos_1.json"
         := a_file "POSTS" 9]> export_fs).

Definition s_manifests : state := MetaBridge.start args manifests_fs 1800000000.

Lemma file_list_without_pattern_witness :
  let search_path := "export/your_facebook_activity/posts/album" in
  Str.contains "*" search_path = false
  ∧ Str.contains "?" search_path = false
  ∧ Str.contains "[" search_path = false
  ∧ (∀ p, p ∈ JSONFileManager._generate_file_list manifests_fs search_path →
          ∃ stem, p = stem +:+ ".json")
  ∧ (os.exists_ manifests_fs search_path = false →
     JSONFileManager._generate_file_list manifests_fs search_path = []).
Proof.
  intros search_path.
  refine (conj eq_refl (conj eq_refl (conj eq_refl _))).
  exact (file_list_without_pattern manifests_fs search_path
           eq_refl eq_refl eq_refl).
Defined.

Lemma extract_attachment_data_yields_all_entries_witness :
  let attachments :=
    [JDict [("data", JList [JDict [("media", video_b)];
                            JDict [("text", JStr "hello")]])];
     JDict []] in
  Py.get post_with_video "attachments" (JList []) = Ok (JList attachments)
  ∧ Forall attachment_ok attachments
  ∧ Attachments.extract_attachment_data post_with_video
    = ([JDict [("media", video_b)]; JDict [("text", JStr "hello")]], None).
Proof.
  intros attachments.
  assert (Forall attachment_ok attachments) as Hok.
  { constructor; [|constructor; [|constructor]].
    - eexists. split; [reflexivity|]. right. eexists. reflexivity.
    - eexists. split; [reflexivity|]. left. reflexivity. }
  refine (conj eq_refl (conj Hok _)).
  exact (extract_attachment_data_yields_all_entries post_with_video
           attachments eq_refl Hok).
Defined.

Definition post_with_number : json :=
  JDict [("attachments",
          JList [JDict [("data", JList [JDict [("media", video_b)]])];
                 JInt 7;
                 JDict [("data", JList [JDict [("media", video_c)]])]])].

Lemma extract_attachment_data_stops_at_bad_attachment_witness :
  let before := [JDict [("data", JList [JDict [("media", video_b)]])]] in
  let after := [JDict [("data", JList [JDict [("media", video_c)]])]] in
  Py.get post_with_number "attachments" (JList [])
    = Ok (JList (before ++ JInt 7 :: after))
  ∧ Forall attachment_ok before
  ∧ Attachments.extract_attachment_data post_with_number
    = ([JDict [("media", video_b)]], Some TypeError).
Proof.
  intros before after.
  assert (Forall attachment_ok before) as Hok.
  { constructor; [|constructor].
    eexists. split; [reflexivity|]. right. eexists. reflexivity. }
  refine (conj eq_refl (conj Hok _)).
  exact (extract_attachment_data_stops_at_bad_attachment post_with_number
           before after (JInt 7) eq_refl Hok
           (or_intror (or_intror (ex_intro _ 7 eq_refl)))).
Defined.

(** *** Runs *)

Definition dry_args : MetaBridge.args_ns :=
  {| MetaBridge.args_path := "export";
     MetaBridge.args_save_path := "out";
     MetaBridge.args_dry_run := true |}.

Lemma main_dry_run_writes_nothing_witness :
  let s' := (Extractors.main dry_args
               (MetaBridge.start dry_args manifests_fs 1800000000)).1 in
  MetaBridge.args_dry_run dry_args = true
  ∧ fs s' = manifests_fs ∧ ops s' = [] ∧ processed_items (self s') = ∅
  ∧ get_total_processed (self s') = 0%nat.
Proof.
  intros s'. split; [reflexivity|].
  exact (main_dry_run_writes_nothing dry_args manifests_fs 1800000000 eq_refl).
Defined.

(** The same export without [--dry-run]: the video of the post is copied,
    then the picture of the album is saved and its video copied, into the
    directory of the album. *)
Example main_on_the_manifests :
  let s' := (Extractors.main args s_manifests).1 in
  omap copied_to (ops s') = ["out/posts/2023-11-14_14.13.20.mp4";
                             "out/albums/Summer/2023-11-14_14.13.20.mp4"]
  ∧ get_total_processed (self s') = 3%nat.
Proof. by_computation. Qed.

Lemma extract_albums_processes_photos_in_order_witness :
  let f := "export/your_facebook_activity/posts/album/0.json" in
  let photos :=
    [JDict [("uri", JStr "your_facebook_activity/posts/media/a.jpg");
            ("creation_timestamp", JInt 1700000000)];
     video_b] in
  JSONFileManager._generate_file_list (fs s_manifests)
    (os_path.join (MetaBridge.args_path args)
       "your_facebook_activity/posts/album/*.json") = [f]
  ∧ fs s_manifests !! f = Some (a_file "ALBUM" 9)
  ∧ Extractors.extract_albums args s_manifests
    = MetaBridge.process_all
        ((λ photo, (photo, "out/albums/Summer")) <$> photos) s_manifests.
Proof.
  intros f photos.
  assert (JSONFileManager._generate_file_list (fs s_manifests)
            (os_path.join (MetaBridge.args_path args)
               "your_facebook_activity/posts/album/*.json") = [f]) as Hf
    by (vm_compute; reflexivity).
  assert (fs s_manifests !! f = Some (a_file "ALBUM" 9)) as Hfile
    by (vm_compute; reflexivity).
  refine (conj Hf (conj Hfile _)).
  exact (extract_albums_processes_photos_in_order args s_manifests f _
           album_manifest "Summer" photos Hf Hfile eq_refl eq_refl eq_refl).
Defined.

Lemma extract_posts_processes_media_in_order_witness :
  let f := "export/your_facebook_activity/posts/your_posts__check_ins__photos_and_videos_1.json" in
  JSONFileManager._generate_file_list (fs s_manifests)
    (os_path.join (MetaBridge.args_path args)
       "your_facebook_activity/posts/your_posts__check_ins__photos_and_videos*.json")
    = [f]
  ∧ fs s_manifests !! f = Some (a_file "POSTS" 9)
  ∧ Forall2 entry_media [post_with_video; post_without_attachments]
      [[video_b]; []]
  ∧ Extractors.extract_posts args s_manifests
    = MetaBridge.process_all [(video_b, "out/posts")] s_manifests.
Proof.
  intros f.
  assert (JSONFileManager._generate_file_list (fs s_manifests)
            (os_path.join (MetaBridge.args_path args)
               "your_facebook_activity/posts/your_posts__check_ins__photos_and_videos*.json")
          = [f]) as Hf by (vm_compute; reflexivity).
  assert (fs s_manifests !! f = Some (a_file "POSTS" 9)) as Hfile
    by (vm_compute; reflexivity).
  assert (Forall2 entry_media [post_with_video; post_without_attachments]
            [[video_b]; []]) as Hposts.
  { constructor; [|constructor; [|constructor]].
    - eexists. split; [reflexivity|]. split; [|split; [|reflexivity]].
      + constructor; [|constructor; [|constructor]].
        * eexists. split; [reflexivity|]. right. eexists. reflexivity.
        * eexists. split; [reflexivity|]. left. reflexivity.
      + repeat constructor; eexists; reflexivity.
    - exists []. split; [reflexivity|]. split; [constructor|].
      split; [constructor|reflexivity]. }
  refine (conj Hf (conj Hfile (conj Hposts _))).
  exact (extract_posts_processes_media_in_order args s_manifests f _
           [post_with_video; post_without_attachments] [[video_b]; []]
           Hf Hfile eq_refl Hposts).
Defined.


Definition bad_album_fs : gmap string node :=
  <["export/your_facebook_activity/posts/album/0.json" := a_file "LIST" 9]>
    export_fs.

Definition s_bad_album : state :=
  MetaBridge.start args bad_album_fs 1800000000.

Lemma album_manifest_of_wrong_shape_raises_witness :
  let f := "export/your_facebook_activity/posts/album/0.json" in
  JSONFileManager._generate_file_list (fs s_bad_album)
    (os_path.join (MetaBridge.args_path args)
       "your_facebook_activity/posts/album/*.json") = [f]
  ∧ fs s_bad_album !! f = Some (a_file "LIST" 9)
  ∧ json_load "LIST" = Ok (JList [JInt 1])
  ∧ (∀ kv, JList [JInt 1] ≠ JDict kv)
  ∧ Extractors.extract_albums args s_bad_album
    = (s_bad_album, Raise AttributeError).
Proof.
  intros f.
  assert (JSONFileManager._generate_file_list (fs s_bad_album)
            (os_path.join (MetaBridge.args_path args)
               "your_facebook_activity/posts/album/*.json") = [f]) as Hf
    by (vm_compute; reflexivity).
  assert (fs s_bad_album !! f = Some (a_file "LIST" 9)) as Hfile
    by (vm_compute; reflexivity).
  assert (∀ kv, JList [JInt 1] ≠ JDict kv) as Hshape
    by (intros kv; discriminate).
  refine (conj Hf (conj Hfile (conj eq_refl (conj Hshape _)))).
  exact (album_manifest_of_wrong_shape_raises args s_bad_album f [] _
           (JList [JInt 1]) Hf Hfile eq_refl Hshape).
Defined.

End MoreExamples.
